(** * Credentials router of the traceability controller

    A shallow embedding of [src/app/routers/credentials.py]: the five
    endpoints of the router ([get_credential], [issue_credential],
    [verify_credential], [update_credential_status],
    [get_status_list_credential]), the route table that declares them, and
    the properties of the status-list specification that can be read off
    this code.

    Python values are JSON documents, dictionaries are insertion-ordered
    association lists, and a handler is a computation in a state-and-exception
    monad over the durable store and a trace of the calls it makes.  The
    modules the router imports but that are not part of this file
    ([app.controllers.status_list], [app.controllers.agent], [app.auth],
    [app.utils], [config.settings]) are an interface, [Externals], over which
    every handler is parametric. *)

From Stdlib Require Import ZArith Ascii String.
From stdpp Require Import base option list strings gmap pretty.

Local Open Scope string_scope.
Local Open Scope list_scope.
Set Warnings "-register-all".

(** ** Strings *)

Module Str.

(** [str.lower()] on the ASCII range: A..Z go to a..z, every other
    character is left alone. *)
Definition lower_ascii (c : ascii) : ascii :=
  let n := nat_of_ascii c in
  if (65 <=? n)%nat && (n <=? 90)%nat then ascii_of_nat (n + 32) else c.

Fixpoint lower (s : string) : string :=
  match s with
  | EmptyString => EmptyString
  | String c rest => String (lower_ascii c) (lower rest)
  end.

(** Number of occurrences of a character. *)
Fixpoint count (c : ascii) (s : string) : nat :=
  match s with
  | EmptyString => 0
  | String d rest => (if Ascii.eqb c d then 1 else 0) + count c rest
  end.

(** [s.startswith(p)]. *)
Fixpoint startswith (p s : string) : bool :=
  match p, s with
  | EmptyString, _ => true
  | String a p', String b s' => Ascii.eqb a b && startswith p' s'
  | String _ _, EmptyString => false
  end.

Definition colon : ascii := ":"%char.

End Str.

(** ** JSON documents and Python dictionaries *)

Inductive Json : Type :=
| JNull
| JBool (b : bool)
| JNum (n : Z)
| JStr (s : string)
| JArr (items : list Json)
| JObj (fields : list (string * Json)).

(** A [dict] with string keys, in insertion order. *)
Abbreviation Dict := (list (string * Json)).

Module PyDict.

(** [d.get(k)] *)
Fixpoint get (k : string) (d : Dict) : option Json :=
  match d with
  | [] => None
  | (k', v) :: rest => if String.eqb k k' then Some v else get k rest
  end.

(** [k in d] *)
Definition mem (k : string) (d : Dict) : bool :=
  match get k d with Some _ => true | None => false end.

(** [del d[k]] for a key that may be absent. *)
Fixpoint remove (k : string) (d : Dict) : Dict :=
  match d with
  | [] => []
  | (k', v) :: rest =>
      if String.eqb k k' then remove k rest else (k', v) :: remove k rest
  end.

(** [d[k] = v]: an existing key keeps its position, a new key goes last. *)
Fixpoint set (k : string) (v : Json) (d : Dict) : Dict :=
  match d with
  | [] => [(k, v)]
  | (k', v') :: rest =>
      if String.eqb k k' then (k, v) :: rest else (k', v') :: set k v rest
  end.

End PyDict.

(** Python truth value of a JSON value, as [if x:] and [not x] take it. *)
Definition truthy (j : Json) : bool :=
  match j with
  | JNull => false
  | JBool b => b
  | JNum n => negb (n =? 0)%Z
  | JStr s => negb (String.eqb s "")
  | JArr l => match l with [] => false | _ => true end
  | JObj d => match d with [] => false | _ => true end
  end.

(** [j == s] for a string literal [s]. *)
Definition eq_str (j : Json) (s : string) : bool :=
  match j with
  | JStr t => String.eqb t s
  | _ => false
  end.

(** ** Exceptions and outcomes *)

(** The failures of the specification's taxonomy (section 7). *)
Inductive EngineFailure : Type :=
| NotFoundError
| AlreadyExistsError
| IndexOutOfRangeError
| CorruptEncodingError
| ConflictError.

Inductive Exn : Type :=
| KeyError (key : string)
| TypeError
| AttributeError
| ValueError
| ValidationException (status_code : Z) (content : Json)
| HTTPException (status_code : Z) (detail : string)
| EngineError (failure : EngineFailure).

Inductive Outcome (A : Type) : Type :=
| Returned (a : A)
| Raised (e : Exn).
Arguments Returned {A} a.
Arguments Raised {A} e.

(** What an endpoint hands back to the framework. *)
Inductive Response : Type :=
| Body (doc : Json)                                  (* a bare value *)
| JSONResponse (status_code : Z) (content : Json)
| ExceptionObject (e : Exn).                         (* an exception returned, not raised *)

(** ** The durable store and the world a request runs in *)

(** What is kept under a key: the bytes of a document, or bytes that do not
    decode. *)
Inductive Stored : Type :=
| Encoded (doc : Json)
| Garbled.

Record Env : Type := mkEnv {
  store : gmap string Stored;    (* the Askar store *)
  clock : Z;                     (* the wall clock, read by [datetime.now] *)
  uuid_ctr : nat                 (* how many UUIDs have been drawn *)
}.

(** Calls to the imported modules and output, in the order they happen. *)
Inductive Event : Type :=
| EvCreateEntry (label list_type : string)
| EvGetCredentialStatus (vc status_type : Json)
| EvChangeCredentialStatus (vc status_bit : Json) (label : string)
| EvGetVerkey (did : Json)
| EvSign (document options verkey : Json)
| EvVerify (vc : Json)
| EvFetch (data_key : string)
| EvStore (data_key : string) (data : Json)
| EvUpdate (data_key : string) (data : Json)
| EvPrint (value : Json).

Record World : Type := mkWorld {
  env : Env;
  trace : list Event
}.

(** State passing with exceptions over a state [S]; the state reached when
    an exception is raised is kept (nothing is rolled back). *)
Definition St (S A : Type) : Type := S -> Outcome A * S.

(** A call into an imported module: it sees and may change the environment. *)
Definition Ext (A : Type) : Type := St Env A.

(** A handler runs over the world. *)
Definition M (A : Type) : Type := St World A.

Definition ret {S A} (a : A) : St S A := fun s => (Returned a, s).

Definition raise {S A} (e : Exn) : St S A := fun s => (Raised e, s).

Definition bind {S A B} (m : St S A) (k : A -> St S B) : St S B :=
  fun s =>
    match m s with
    | (Returned a, s') => k a s'
    | (Raised e, s') => (Raised e, s')
    end.

(** [try: m except: h] with a bare [except]. *)
Definition try_except {S A} (m : St S A) (h : St S A) : St S A :=
  fun s =>
    match m s with
    | (Returned a, s') => (Returned a, s')
    | (Raised _, s') => h s'
    end.

Declare Scope handler_scope.
Delimit Scope handler_scope with handler.
Notation "x <- c1 ;; c2" := (bind c1 (fun x => c2))
  (at level 100, c1 at next level, right associativity) : handler_scope.
Notation "c1 ;; c2" := (bind c1 (fun _ => c2))
  (at level 100, right associativity) : handler_scope.
Local Open Scope handler_scope.

(** A pure step that may raise. *)
Definition lift {S A} (r : Exn + A) : St S A :=
  match r with
  | inl e => raise e
  | inr a => ret a
  end.

(** Run an external call and record it. *)
Definition call {A} (ev : Event) (f : Ext A) : M A :=
  fun w =>
    let '(r, e') := f (env w) in
    (r, mkWorld e' (trace w ++ [ev])).

Definition print (value : Json) : M unit :=
  fun w => (Returned tt, mkWorld (env w) (trace w ++ [EvPrint value])).

(** ** Python operations on JSON values *)

Module Py.

(** [o[k]] with a string key. *)
Definition getitem (o : Json) (k : string) : Exn + Json :=
  match o with
  | JObj d => match PyDict.get k d with
              | Some v => inr v
              | None => inl (KeyError k)
              end
  | _ => inl TypeError
  end.

(** [d[k]] on a dictionary. *)
Definition dict_getitem (d : Dict) (k : string) : Exn + Json :=
  getitem (JObj d) k.

(** [d.pop(k)] without a default: the value and the remaining dictionary,
    [KeyError] when the key is absent. *)
Definition dict_pop (k : string) (d : Dict) : Exn + (Json * Dict) :=
  match PyDict.get k d with
  | Some v => inr (v, PyDict.remove k d)
  | None => inl (KeyError k)
  end.

(** The object-typed fields of a request body are dictionaries. *)
Definition as_dict (j : Json) : Exn + Dict :=
  match j with
  | JObj d => inr d
  | _ => inl TypeError
  end.

(** [l.append(x)]: only lists have it. *)
Definition append (l : Json) (x : Json) : Exn + Json :=
  match l with
  | JArr items => inr (JArr (items ++ [x]))
  | _ => inl AttributeError
  end.

(** [l += [x]]: list concatenation in place. *)
Definition iadd_list (l : Json) (xs : list Json) : Exn + Json :=
  match l with
  | JArr items => inr (JArr (items ++ xs))
  | _ => inl TypeError
  end.

(** [len(x)] *)
Definition len (j : Json) : Exn + nat :=
  match j with
  | JArr l => inr (length l)
  | JObj d => inr (length d)
  | JStr s => inr (String.length s)
  | _ => inl TypeError
  end.

(** The items a [for] loop visits. *)
Fixpoint chars (s : string) : list Json :=
  match s with
  | EmptyString => []
  | String c rest => JStr (String c EmptyString) :: chars rest
  end.

Definition iter (j : Json) : Exn + list Json :=
  match j with
  | JArr l => inr l
  | JObj d => inr (map (fun kv => JStr (fst kv)) d)
  | JStr s => inr (chars s)
  | _ => inl TypeError
  end.

End Py.

(** Modelled from the spec: the Store behind [askar.fetch_data],
    [askar.store_data] and [askar.update_data] (the module
    [app.controllers.askar] is not part of this file).  Section 6 gives it as
    [get(key) -> bytes | NotFound] and [put(key, bytes) -> void]; section 7
    names the failure of bytes that do not decode. *)
Module askar.

Definition fetch_data (store_key data_key : string) : Ext Json :=
  fun e =>
    match store e !! data_key with
    | Some (Encoded doc) => (Returned doc, e)
    | Some Garbled => (Raised (EngineError CorruptEncodingError), e)
    | None => (Raised (EngineError NotFoundError), e)
    end.

Definition put (data_key : string) (data : Json) (e : Env) : Env :=
  mkEnv (<[data_key := Encoded data]> (store e)) (clock e) (uuid_ctr e).

Definition store_data (store_key data_key : string) (data : Json) : Ext unit :=
  fun e => (Returned tt, put data_key data e).

Definition update_data (store_key data_key : string) (data : Json) : Ext unit :=
  fun e => (Returned tt, put data_key data e).

End askar.

(** ** Requests and the imported modules *)

Inductive Method : Type := GET | POST.

Record Request : Type := mkRequest {
  req_method : Method;
  req_path : list string;               (* the path, split at "/" *)
  req_authorization : option string;    (* the bearer token, when one is sent *)
  req_body : Json
}.

(** [datetime]: an instant and the time zone it is given in. *)
Record DateTime : Type := mkDateTime {
  instant : Z;
  tzinfo : option Z
}.

(** The request-body schemas of [app.models.web_requests]. *)
Inductive Schema : Type :=
| IssueCredentialSchema
| UpdateCredentialStatusSchema
| VerifyCredentialSchema.

(** What the router imports: settings, authentication, the status-list
    controller, the agent, and the Python built-ins whose result this file
    does not fix. *)
Class Externals : Type := {
  (* config.settings *)
  ASKAR_KEY : string;
  DID_WEB_BASE : string;
  (* app.auth.bearer.JWTBearer()(request): the exception it raises, if any *)
  jwt_bearer : Request -> option Exn;
  (* app.auth.handler.is_authorized(label, request) *)
  is_authorized : string -> Request -> Exn + string;
  (* app.utils.format_label(label) *)
  format_label : string -> string;
  (* app.controllers.status_list *)
  create_entry : string -> string -> Ext Json;
  get_credential_status : Json -> Json -> Ext Json;
  change_credential_status : Json -> Json -> string -> Ext Json;
  (* app.controllers.agent *)
  get_verkey : Json -> Ext Json;
  sign_json_ld : Json -> Json -> Json -> Ext Json;
  agent_verify_credential : Json -> Ext Json;
  (* CredentialVerificationResponse().dict() *)
  CredentialVerificationResponse : Dict;
  (* request validation followed by .dict(exclude_none=True) *)
  body_dict : Schema -> Json -> Exn + Dict;
  (* str(uuid.uuid4()), by the number of UUIDs drawn before *)
  uuid4 : nat -> string;
  (* str(x) of a value that is not a string, inside an f-string *)
  py_str : Json -> string;
  (* datetime.fromisoformat *)
  fromisoformat : Json -> Exn + DateTime
}.

(** ** The endpoints *)

Section Router.

Context `{X : Externals}.

(** [f"{x}"] *)
Definition fmt (x : Json) : string :=
  match x with
  | JStr s => s
  | _ => py_str x
  end.

(** One more UUID has been drawn. *)
Definition tick_uuid (e : Env) : Env :=
  mkEnv (store e) (clock e) (S (uuid_ctr e)).

(** [uuid.uuid4()] *)
Definition draw_uuid : M string :=
  fun w =>
    (Returned (uuid4 (uuid_ctr (env w))), mkWorld (tick_uuid (env w)) (trace w)).

(** [doc["issuer"] if isinstance(doc["issuer"], str) else doc["issuer"]["id"]] *)
Definition issuer_id (doc : Json) : Exn + Json :=
  match Py.getitem doc "issuer" with
  | inr (JStr s) => inr (JStr s)
  | inr issuer => Py.getitem issuer "id"
  | inl e => inl e
  end.

(** [datetime.now(tz)] *)
Definition datetime_now (tz : option Z) : M DateTime :=
  fun w => (Returned (mkDateTime (clock (env w)) tz), w).

(** [d[k].append(x)] *)
Definition append_at (d : Dict) (k : string) (x : Json) : M Dict :=
  l <- lift (Py.dict_getitem d k) ;;
  l <- lift (Py.append l x) ;;
  ret (PyDict.set k l d).

(** [d[k] += [x]] *)
Definition iadd_at (d : Dict) (k : string) (x : Json) : M Dict :=
  l <- lift (Py.dict_getitem d k) ;;
  l <- lift (Py.iadd_list l [x]) ;;
  ret (PyDict.set k l d).

(** [for x in xs: body(x)] *)
Fixpoint for_each (xs : list Json) (body : Json -> M unit) : M unit :=
  match xs with
  | [] => ret tt
  | x :: rest => body x ;; for_each rest body
  end.

Definition message (text : string) : Json := JObj [("message", JStr text)].

(** The keys under which the router reads and writes the store. *)
Definition credential_key (label credential_id : string) : string :=
  label +:+ ":credentials:" +:+ credential_id.

Definition status_list_key (label : string) : string :=
  label +:+ ":status_list".

Definition status_lists_key (label list_type : string) : string :=
  label +:+ ":status_lists:" +:+ list_type.

Definition get_credential (label credential_id : string) (request : Request)
  : M Response :=
  label <- lift (is_authorized label request) ;;
  try_except
    (let data_key := credential_key label credential_id in
     credential <- call (EvFetch data_key) (askar.fetch_data ASKAR_KEY data_key) ;;
     ret (Body credential))
    (raise (ValidationException 404
              (message ("credential " +:+ credential_id +:+ " not found")))).

Definition issue_credential (label : string) (request : Request)
    (request_body : Dict) : M Response :=
  label <- lift (is_authorized label request) ;;
  credential <- lift (Py.dict_getitem request_body "credential") ;;
  credential <- lift (Py.as_dict credential) ;;
  popped <- lift (Py.dict_pop "context" credential) ;;
  let credential := PyDict.set "@context" (fst popped) (snd popped) in
  options <- lift (Py.dict_getitem request_body "options") ;;
  (* Generate a credential id if none is provided *)
  credential <-
    (if PyDict.mem "id" credential then ret credential
     else
       u <- draw_uuid ;;
       ret (PyDict.set "id" (JStr ("urn:uuid:" +:+ u)) credential)) ;;
  (* Fill status information *)
  options <- lift (Py.as_dict options) ;;
  credential <-
    (if PyDict.mem "credentialStatus" options then
       status <- lift (Py.dict_getitem options "credentialStatus") ;;
       status_type <- lift (Py.getitem status "type") ;;
       if eq_str status_type "StatusList2021Entry" then
         credential <-
           append_at credential "@context"
             (JStr "https://w3id.org/vc/status-list/2021/v1") ;;
         entry <- call (EvCreateEntry label "StatusList2021")
                       (create_entry label "StatusList2021") ;;
         ret (PyDict.set "credentialStatus" entry credential)
       else if eq_str status_type "RevocationList2020Status" then
         credential <-
           append_at credential "@context"
             (JStr "https://w3id.org/vc-revocation-list-2020/v1") ;;
         entry <- call (EvCreateEntry label "RevocationList2020")
                       (create_entry label "RevocationList2020") ;;
         ret (PyDict.set "credentialStatus" entry credential)
       else ret credential
     else ret credential) ;;
  popped <- lift (Py.dict_pop "credentialStatus" options) ;;
  let options := snd popped in
  issuer_did <- lift (issuer_id (JObj credential)) ;;
  let did := DID_WEB_BASE +:+ ":organization:" +:+ label in
  if negb (eq_str issuer_did did) then
    raise (ValidationException 400 (message "Invalid issuer"))
  else
    (* Limited to 1 verification_key per did and we use #verkey as id *)
    let options := PyDict.set "verificationMethod" (JStr (did +:+ "#verkey")) options in
    let options :=
      if PyDict.mem "created" options then PyDict.remove "created" options
      else options in
    let options := PyDict.set "proofPurpose" (JStr "assertionMethod") options in
    verkey <- call (EvGetVerkey (JStr did)) (get_verkey (JStr did)) ;;
    print (JObj credential) ;;
    print (JObj options) ;;
    vc <- call (EvSign (JObj credential) (JObj options) verkey)
               (sign_json_ld (JObj credential) (JObj options) verkey) ;;
    id <- lift (Py.dict_getitem credential "id") ;;
    let data_key := Str.lower (credential_key label (fmt id)) in
    call (EvStore data_key (JObj credential))
         (askar.store_data ASKAR_KEY data_key (JObj credential)) ;;
    ret (JSONResponse 201 (JObj [("verifiableCredential", vc)])).

Definition verify_credential (label : string) (request : Request)
    (request_body : Dict) : M Response :=
  label <- lift (is_authorized label request) ;;
  vc <- lift (Py.dict_getitem request_body "verifiableCredential") ;;
  vc <- lift (Py.as_dict vc) ;;
  popped <- lift (Py.dict_pop "context" vc) ;;
  let vc := PyDict.set "@context" (fst popped) (snd popped) in
  let verification := CredentialVerificationResponse in
  (* Check credential status *)
  verification <-
    (if PyDict.mem "credentialStatus" vc then
       claim <- lift (Py.dict_getitem vc "credentialStatus") ;;
       status_type <- lift (Py.getitem claim "type") ;;
       verification <- iadd_at verification "checks" (JStr "status") ;;
       status <- call (EvGetCredentialStatus (JObj vc) status_type)
                      (get_credential_status (JObj vc) status_type) ;;
       if truthy status then
         verification <- iadd_at verification "errors" (JStr "revoked") ;;
         ret (PyDict.set "verifications"
                (JArr [JObj [("title", JStr "Revocation"); ("status", JStr "bad")]])
                verification)
       else ret verification
     else ret verification) ;;
  (* Check expiration date *)
  verification <-
    (if PyDict.mem "expirationDate" vc then
       verification <- append_at verification "checks" (JStr "expiry") ;;
       expiration <- lift (Py.dict_getitem vc "expirationDate") ;;
       expiration_time <- lift (fromisoformat expiration) ;;
       let timezone := tzinfo expiration_time in
       time_now <- datetime_now timezone ;;
       if (instant expiration_time <? instant time_now)%Z then
         append_at verification "errors" (JStr "expired")
       else ret verification
     else ret verification) ;;
  print (JObj vc) ;;
  verified <- call (EvVerify (JObj vc)) (agent_verify_credential (JObj vc)) ;;
  verification <- append_at verification "checks" (JStr "proof") ;;
  try_except
    (flag <- lift (Py.getitem verified "verified") ;;
     verification <-
       (if negb (truthy flag) then
          append_at verification "errors" (JStr "invalid proof")
        else ret verification) ;;
     errors <- lift (Py.dict_getitem verification "errors") ;;
     n_errors <- lift (Py.len errors) ;;
     clean <-
       (if (n_errors =? 0)%nat then
          warnings <- lift (Py.dict_getitem verification "warnings") ;;
          n_warnings <- lift (Py.len warnings) ;;
          ret (n_warnings =? 0)%nat
        else ret false) ;;
     let verification := PyDict.set "verified" (JBool clean) verification in
     ret (JSONResponse 200 verified))
    (let verification := PyDict.set "verified" (JBool false) verification in
     verification <- append_at verification "errors" (JStr "verifier error") ;;
     ret (JSONResponse 200 verified)).

(** The body of the loop of [update_credential_status]: one status change
    is computed, signed and written before the next one is looked at. *)
Definition apply_status (label : string) (vc options verkey : Json)
    (status : Json) : M unit :=
  status_bit <- lift (Py.getitem status "status") ;;
  status_list_credential <-
    call (EvChangeCredentialStatus vc status_bit label)
         (change_credential_status vc status_bit label) ;;
  status_list_vc <-
    call (EvSign status_list_credential options verkey)
         (sign_json_ld status_list_credential options verkey) ;;
  let data_key := status_list_key label in
  call (EvUpdate data_key status_list_vc)
       (askar.update_data ASKAR_KEY data_key status_list_vc).

Definition update_credential_status (label : string) (request : Request)
    (request_body : Dict) : M Response :=
  label <- lift (is_authorized label request) ;;
  credential_id <- lift (Py.dict_getitem request_body "credentialId") ;;
  statuses <- lift (Py.dict_getitem request_body "credentialStatus") ;;
  let data_key := Str.lower (credential_key label (fmt credential_id)) in
  vc <- call (EvFetch data_key) (askar.fetch_data ASKAR_KEY data_key) ;;
  did <- lift (issuer_id vc) ;;
  verkey <- call (EvGetVerkey did) (get_verkey did) ;;
  let options :=
    JObj [("verificationMethod", JStr (fmt did +:+ "#verkey"));
          ("proofPurpose", JStr "AssertionMethod")] in
  items <- lift (Py.iter statuses) ;;
  for_each items (apply_status label vc options verkey) ;;
  ret (JSONResponse 200 (message "Status updated")).

Definition get_status_list_credential (label list_type : string) : M Response :=
  let label := format_label label in
  try_except
    (let data_key := status_lists_key label list_type in
     status_list_vc <- call (EvFetch data_key) (askar.fetch_data ASKAR_KEY data_key) ;;
     ret (Body status_list_vc))
    (ret (ExceptionObject (ValidationException 404 (message "Status list not found")))).

(** *** The route table *)

Inductive Segment : Type :=
| Lit (text : string)
| Param (name : string).

Inductive Dependency : Type := JWTBearer.

Inductive Endpoint : Type :=
| GetCredential
| IssueCredential
| VerifyCredential
| UpdateCredentialStatus
| GetStatusListCredential.

Record Route : Type := mkRoute {
  route_method : Method;
  route_path : list Segment;
  route_dependencies : list Dependency;
  route_endpoint : Endpoint
}.

(** The decorators of the file, in the order they are declared. *)
Definition router : list Route :=
  [ mkRoute GET
      [Lit "organization"; Param "label"; Lit "credentials"; Param "credential_id"]
      [JWTBearer] GetCredential;
    mkRoute POST
      [Lit "organization"; Param "label"; Lit "credentials"; Lit "issue"]
      [JWTBearer] IssueCredential;
    mkRoute POST
      [Lit "organization"; Param "label"; Lit "credentials"; Lit "verify"]
      [JWTBearer] VerifyCredential;
    mkRoute POST
      [Lit "organization"; Param "label"; Lit "credentials"; Lit "status"]
      [JWTBearer] UpdateCredentialStatus;
    mkRoute GET
      [Lit "organization"; Param "label"; Lit "credentials"; Lit "status";
       Param "list_type"]
      [] GetStatusListCredential ].

Definition method_eqb (a b : Method) : bool :=
  match a, b with
  | GET, GET | POST, POST => true
  | _, _ => false
  end.

(** A path parameter takes one non-empty segment. *)
Fixpoint match_path (pattern : list Segment) (path : list string)
  : option (list (string * string)) :=
  match pattern, path with
  | [], [] => Some []
  | Lit text :: pattern', x :: path' =>
      if String.eqb text x then match_path pattern' path' else None
  | Param name :: pattern', x :: path' =>
      if String.eqb x "" then None
      else match match_path pattern' path' with
           | Some params => Some ((name, x) :: params)
           | None => None
           end
  | _, _ => None
  end.

(** The first route whose path and method both match. *)
Fixpoint resolve (routes : list Route) (r : Request)
  : option (Route * list (string * string)) :=
  match routes with
  | [] => None
  | route :: rest =>
      match match_path (route_path route) (req_path r) with
      | Some params =>
          if method_eqb (route_method route) (req_method r)
          then Some (route, params)
          else resolve rest r
      | None => resolve rest r
      end
  end.

Fixpoint param (name : string) (params : list (string * string)) : string :=
  match params with
  | [] => ""
  | (n, v) :: rest => if String.eqb name n then v else param name rest
  end.

Definition run_dependency (d : Dependency) (r : Request) : M unit :=
  match d with
  | JWTBearer =>
      match jwt_bearer r with
      | Some e => raise e
      | None => ret tt
      end
  end.

Fixpoint run_dependencies (ds : list Dependency) (r : Request) : M unit :=
  match ds with
  | [] => ret tt
  | d :: rest => run_dependency d r ;; run_dependencies rest r
  end.

Definition run_endpoint (ep : Endpoint) (params : list (string * string))
    (r : Request) : M Response :=
  let label := param "label" params in
  match ep with
  | GetCredential => get_credential label (param "credential_id" params) r
  | IssueCredential =>
      body <- lift (body_dict IssueCredentialSchema (req_body r)) ;;
      issue_credential label r body
  | VerifyCredential =>
      body <- lift (body_dict VerifyCredentialSchema (req_body r)) ;;
      verify_credential label r body
  | UpdateCredentialStatus =>
      body <- lift (body_dict UpdateCredentialStatusSchema (req_body r)) ;;
      update_credential_status label r body
  | GetStatusListCredential =>
      get_status_list_credential label (param "list_type" params)
  end.

(** One request through the router: route, dependencies, endpoint. *)
Definition serve (r : Request) : M Response :=
  match resolve router r with
  | None => raise (HTTPException 404 "Not Found")
  | Some (route, params) =>
      run_dependencies (route_dependencies route) r ;;
      run_endpoint (route_endpoint route) params r
  end.

End Router.

(** ** The status-list engine of the specification *)

(** Modelled from the spec: the status-list controller
    [app.controllers.status_list] is not part of this file.  The definitions
    below follow sections 3 and 4 of the specification: the codec (4.1,
    without the compression step), the list store (4.2), the index allocator
    (4.3), the mutator (4.4), the credential builder (4.5) and the three
    entry points of the engine (4.6).  The identifier of a list is used as
    the URL of its credential. *)
Module StatusEngine.

Record StatusList : Type := mkStatusList {
  sl_id : string;
  capacity : nat;
  bits : list bool;
  next_free_index : nat;
  generation : nat
}.

Record StatusChange : Type := mkStatusChange {
  status_list_index : nat;
  status_purpose : string;
  new_value : bool
}.

(** 4.1 BitstringCodec *)
Fixpoint encode (bs : list bool) : string :=
  match bs with
  | [] => ""
  | b :: rest => String (if b then "1"%char else "0"%char) (encode rest)
  end.

Fixpoint decode (s : string) : option (list bool) :=
  match s with
  | EmptyString => Some []
  | String c rest =>
      match decode rest with
      | Some bs =>
          if Ascii.eqb c "1"%char then Some (true :: bs)
          else if Ascii.eqb c "0"%char then Some (false :: bs)
          else None
      | None => None
      end
  end.

(** The key of a list: [{tenant}:status_lists:{type}:{generation}]. *)
Definition list_id (tenant type : string) (gen : nat) : string :=
  tenant +:+ ":status_lists:" +:+ type +:+ ":" +:+ pretty gen.

(** Header and encoded bitstring, as persisted. *)
Definition to_doc (l : StatusList) : Json :=
  JObj [("id", JStr (sl_id l));
        ("capacity", JNum (Z.of_nat (capacity l)));
        ("next_free_index", JNum (Z.of_nat (next_free_index l)));
        ("generation", JNum (Z.of_nat (generation l)));
        ("encodedList", JStr (encode (bits l)))].

Definition of_doc (j : Json) : option StatusList :=
  match j with
  | JObj d =>
      match PyDict.get "id" d, PyDict.get "capacity" d,
            PyDict.get "next_free_index" d, PyDict.get "generation" d,
            PyDict.get "encodedList" d with
      | Some (JStr id), Some (JNum c), Some (JNum n), Some (JNum g),
        Some (JStr enc) =>
          match decode enc with
          | Some bs =>
              if (length bs =? Z.to_nat c)%nat
              then Some (mkStatusList id (Z.to_nat c) bs (Z.to_nat n) (Z.to_nat g))
              else None
          | None => None
          end
      | _, _, _, _, _ => None
      end
  | _ => None
  end.

(** 4.2 StatusListStore *)
Definition load_id (id : string) : Ext StatusList :=
  fun e =>
    match store e !! id with
    | Some (Encoded doc) =>
        match of_doc doc with
        | Some l => (Returned l, e)
        | None => (Raised (EngineError CorruptEncodingError), e)
        end
    | Some Garbled => (Raised (EngineError CorruptEncodingError), e)
    | None => (Raised (EngineError NotFoundError), e)
    end.

Definition save (l : StatusList) : Ext unit :=
  fun e => (Returned tt, askar.put (sl_id l) (to_doc l) e).

Definition fresh (tenant type : string) (gen cap : nat) : StatusList :=
  mkStatusList (list_id tenant type gen) cap (replicate cap false) 0 gen.

(** A new generation, all bits false; it must not exist yet. *)
Definition create_generation (tenant type : string) (gen cap : nat)
  : Ext StatusList :=
  fun e =>
    match store e !! list_id tenant type gen with
    | Some _ => (Raised (EngineError AlreadyExistsError), e)
    | None =>
        let l := fresh tenant type gen cap in
        (Returned l, askar.put (sl_id l) (to_doc l) e)
    end.

Definition create (tenant type : string) (cap : nat) : Ext StatusList :=
  create_generation tenant type 0 cap.

(** The highest generation that exists, searching upwards from [gen]. *)
Fixpoint latest_from (st : gmap string Stored) (tenant type : string)
    (fuel gen : nat) : nat :=
  match fuel with
  | O => gen
  | S fuel' =>
      match st !! list_id tenant type (S gen) with
      | Some _ => latest_from st tenant type fuel' (S gen)
      | None => gen
      end
  end.

Definition latest (st : gmap string Stored) (tenant type : string) : option nat :=
  match st !! list_id tenant type 0 with
  | Some _ => Some (latest_from st tenant type (size st) 0)
  | None => None
  end.

Definition load (tenant type : string) (gen : option nat) : Ext StatusList :=
  fun e =>
    match gen with
    | Some g => load_id (list_id tenant type g) e
    | None =>
        match latest (store e) tenant type with
        | Some g => load_id (list_id tenant type g) e
        | None => (Raised (EngineError NotFoundError), e)
        end
    end.

(** 4.3 IndexAllocator *)
Definition entry (l : StatusList) (type : string) (index : nat)
    (purpose : string) : Json :=
  JObj [("id", JStr (sl_id l +:+ "#" +:+ pretty index));
        ("type", JStr type);
        ("statusListCredential", JStr (sl_id l));
        ("statusListIndex", JNum (Z.of_nat index));
        ("statusPurpose", JStr purpose)].

Definition allocate (cap : nat) (tenant type purpose : string) : Ext Json :=
  (* 1. the current list, or generation 0 *)
  l <- try_except (load tenant type None) (create tenant type cap) ;;
  (* 2. a sealed list rolls over *)
  l <- (if (next_free_index l =? capacity l)%nat
        then create_generation tenant type (S (generation l)) cap
        else ret l) ;;
  (* 3. reserve the index and persist the counter *)
  let index := next_free_index l in
  save (mkStatusList (sl_id l) (capacity l) (bits l) (S index) (generation l)) ;;
  (* 4. the entry *)
  ret (entry l type index purpose).

(** 4.4 StatusMutator *)
Fixpoint apply (l : StatusList) (changes : list StatusChange)
  : Exn + StatusList :=
  match changes with
  | [] => inr l
  | c :: rest =>
      if (status_list_index c <? capacity l)%nat then
        apply (mkStatusList (sl_id l) (capacity l)
                 (<[status_list_index c := new_value c]> (bits l))
                 (next_free_index l) (generation l)) rest
      else inl (EngineError IndexOutOfRangeError)
  end.

(** 4.5 StatusListCredentialBuilder *)
Definition build (l : StatusList) (type purpose : string) (issuer_id : Json)
    (base_url : string) (now : Z) : Json :=
  JObj [("id", JStr (base_url +:+ sl_id l));
        ("type", JArr [JStr "VerifiableCredential"; JStr (type +:+ "Credential")]);
        ("issuer", issuer_id);
        ("validFrom", JNum now);
        ("credentialSubject",
          JObj [("type", JStr type);
                ("statusPurpose", JStr purpose);
                ("encodedList", JStr (encode (bits l)))])].

(** 4.6 StatusEngine *)
Definition create_entry (cap : nat) (tenant type : string) : Ext Json :=
  allocate cap tenant type "revocation".

(** The fields of a status claim that locate its bit. *)
Definition locate (claim : Json) : Exn + (string * nat * string) :=
  match Py.getitem claim "statusListCredential",
        Py.getitem claim "statusListIndex",
        Py.getitem claim "statusPurpose" with
  | inr (JStr id), inr (JNum i), inr (JStr purpose) =>
      if (i <? 0)%Z then inl (EngineError IndexOutOfRangeError)
      else inr (id, Z.to_nat i, purpose)
  | inl e, _, _ => inl e
  | _, inl e, _ => inl e
  | _, _, inl e => inl e
  | _, _, _ => inl TypeError
  end.

Definition get_credential_status (vc_status_claim : Json) (type : Json)
  : Ext Json :=
  loc <- lift (locate vc_status_claim) ;;
  l <- load_id (fst (fst loc)) ;;
  match bits l !! snd (fst loc) with
  | Some b => ret (JBool b)
  | None => raise (EngineError IndexOutOfRangeError)
  end.

Definition change_credential_status (base_url : string) (vc status_bit : Json)
    (tenant : string) : Ext Json :=
  claim <- lift (Py.getitem vc "credentialStatus") ;;
  loc <- lift (locate claim) ;;
  type <- lift (match Py.getitem claim "type" with
                | inr (JStr t) => inr t
                | inr _ => inl TypeError
                | inl e => inl e
                end) ;;
  issuer <- lift (Py.getitem vc "issuer") ;;
  value <- match status_bit with
           | JBool b => ret b
           | _ => raise TypeError
           end ;;
  l <- load_id (fst (fst loc)) ;;
  l <- lift (apply l [mkStatusChange (snd (fst loc)) (snd loc) value]) ;;
  save l ;;
  fun e => (Returned (build l type (snd loc) issuer base_url (clock e)), e).

End StatusEngine.

(** The body of a status update: [credentialId] and the batch of changes. *)
Definition status_request (credential_id : Json) (statuses : list Json) : Dict :=
  [("credentialId", credential_id); ("credentialStatus", JArr statuses)].

(** ** A concrete deployment

    The router over the engine of the specification, with lists of eight
    bits (the capacity of the specification's scenarios), an agent that
    attaches the options as the proof, and tokens that name the tenant they
    are valid for. *)
Module Deployment.

Definition list_capacity : nat := 8.

Definition bearer (r : Request) : option Exn :=
  match req_authorization r with
  | Some _ => None
  | None => Some (HTTPException 403 "Not authenticated")
  end.

Definition authorize (label : string) (r : Request) : Exn + string :=
  match req_authorization r with
  | Some token =>
      if String.eqb token label then inr label
      else inl (HTTPException 401 "Unauthorized")
  | None => inl (HTTPException 401 "Unauthorized")
  end.

Definition status_of (vc status_type : Json) : Ext Json :=
  claim <- lift (Py.getitem vc "credentialStatus") ;;
  StatusEngine.get_credential_status claim status_type.

Definition verkey_of (did : Json) : Ext Json := ret (JStr "verkey").

Definition sign (document options verkey : Json) : Ext Json :=
  match document with
  | JObj d => ret (JObj (PyDict.set "proof" options d))
  | _ => raise TypeError
  end.

Definition verify (vc : Json) : Ext Json :=
  ret (JObj [("verified",
              JBool match vc with
                    | JObj d => PyDict.mem "proof" d
                    | _ => false
                    end)]).

Definition verification_response : Dict :=
  [("verified", JBool false); ("verifications", JArr []); ("checks", JArr []);
   ("warnings", JArr []); ("errors", JArr [])].

Definition externals : Externals := {|
  ASKAR_KEY := "askar-key";
  DID_WEB_BASE := "did:web:example.com";
  jwt_bearer := bearer;
  is_authorized := authorize;
  format_label := fun label => label;
  create_entry := StatusEngine.create_entry list_capacity;
  get_credential_status := status_of;
  change_credential_status := StatusEngine.change_credential_status "";
  get_verkey := verkey_of;
  sign_json_ld := sign;
  agent_verify_credential := verify;
  CredentialVerificationResponse := verification_response;
  body_dict := fun _ body => Py.as_dict body;
  uuid4 := fun n => "00000000-0000-4000-8000-" +:+ pretty n;
  py_str := fun _ => "";
  fromisoformat := fun _ => inl ValueError
|}.

Definition world0 : World := mkWorld (mkEnv ∅ 0 0) [].

Definition acme_did : string := "did:web:example.com:organization:acme".

Definition request (token : option string) : Request :=
  mkRequest POST [] token JNull.

(** The credential of an issuance request. *)
Definition credential_doc (id issuer : string) : Dict :=
  [("context", JArr [JStr "https://www.w3.org/2018/credentials/v1"]);
   ("id", JStr id);
   ("type", JArr [JStr "VerifiableCredential"]);
   ("issuer", JStr issuer)].

(** The body of an issuance request. *)
Definition issue_body (id issuer : string) (options : Dict) : Dict :=
  [("credential", JObj (credential_doc id issuer)); ("options", JObj options)].

Definition with_status : Dict :=
  [("credentialStatus", JObj [("type", JStr "StatusList2021Entry")])].

Definition acme : Request := request (Some "acme").

(** The world after tenant [acme] has issued [urn:uuid:1] with a status
    entry: the credential is stored and index 0 of generation 0 is taken. *)
Definition issued : World :=
  mkWorld
    (env (snd (@issue_credential externals "acme" acme
                 (issue_body "urn:uuid:1" acme_did with_status) world0)))
    [].

(** The counter of the first [StatusList2021] list of [acme]. *)
Definition next_index (e : Env) : option nat :=
  match StatusEngine.load_id
          (StatusEngine.list_id "acme" "StatusList2021" 0) e with
  | (Returned l, _) => Some (StatusEngine.next_free_index l)
  | (Raised _, _) => None
  end.


Definition set_status (value : Json) : Json := JObj [("status", value)].

(** The keys written in a trace. *)
Definition written_keys (t : list Event) : list string :=
  omap (λ ev, match ev with
              | EvStore k _ | EvUpdate k _ => Some k
              | _ => None
              end) t.

(** The status claim of [urn:uuid:1]. *)
Definition status_claim : Json :=
  JObj [("id", JStr "acme:status_lists:StatusList2021:0#0");
        ("type", JStr "StatusList2021");
        ("statusListCredential", JStr "acme:status_lists:StatusList2021:0");
        ("statusListIndex", JNum 0);
        ("statusPurpose", JStr "revocation")].

(** The body of a verification request for [urn:uuid:1] as issued. *)
Definition verify_body : Dict :=
  [("verifiableCredential",
     JObj [("context", JArr [JStr "https://www.w3.org/2018/credentials/v1";
                             JStr "https://w3id.org/vc/status-list/2021/v1"]);
           ("id", JStr "urn:uuid:1");
           ("type", JArr [JStr "VerifiableCredential"]);
           ("issuer", JStr acme_did);
           ("credentialStatus", status_claim);
           ("proof",
             JObj [("verificationMethod", JStr (acme_did +:+ "#verkey"));
                   ("proofPurpose", JStr "assertionMethod")])])].

(** [acme] revokes [urn:uuid:1]. *)
Definition revoked : World :=
  mkWorld
    (env (snd (@update_credential_status externals "acme" acme
                 (status_request (JStr "urn:uuid:1") [set_status (JBool true)])
                 issued)))
    [].




(** Options that ask for a status entry of a type the router does not
    know. *)
Definition with_other_status : Dict :=
  [("credentialStatus", JObj [("type", JStr "BitstringStatusListEntry")])].

(** A credential whose context is a single string. *)
Definition string_context_doc : Dict :=
  [("context", JStr "https://www.w3.org/2018/credentials/v1");
   ("id", JStr "urn:uuid:2");
   ("type", JArr [JStr "VerifiableCredential"]);
   ("issuer", JStr acme_did)].

(** A credential with no status and no expiration date, to be verified. *)
Definition plain_vc : Dict :=
  [("context", JArr [JStr "https://www.w3.org/2018/credentials/v1"]);
   ("id", JStr "urn:uuid:3");
   ("type", JArr [JStr "VerifiableCredential"]);
   ("issuer", JStr acme_did)].

(** A credential with an expiration date. *)
Definition expiring_vc : Dict :=
  [("context", JArr [JStr "https://www.w3.org/2018/credentials/v1"]);
   ("id", JStr "urn:uuid:4");
   ("issuer", JStr acme_did);
   ("expirationDate", JStr "next year")].

(** The route of [issue_credential]. *)
Definition issue_route : Route :=
  mkRoute POST
    [Lit "organization"; Param "label"; Lit "credentials"; Lit "issue"]
    [JWTBearer] IssueCredential.

End Deployment.

(** ** Predicates used to state the properties *)

(** [emits P m]: every event a run of [m] adds to the trace satisfies [P]. *)
Definition emits {A} (P : Event -> Prop) (m : M A) : Prop :=
  ∀ w r w', m w = (r, w') →
    ∃ evs, trace w' = trace w ++ evs ∧ Forall P evs.

(** The key of a store access, if the event is one. *)
Definition store_key (ev : Event) : option string :=
  match ev with
  | EvFetch k | EvStore k _ | EvUpdate k _ => Some k
  | _ => None
  end.



Definition no_colon (s : string) : Prop := Str.count Str.colon s = 0.

(** The label an authorized request runs under. *)
Definition resolved `{X : Externals} (label : string) (request : Request) : string :=
  match is_authorized label request with
  | inr l => l
  | inl _ => label
  end.

(** A key of the specification's scheme
    [{tenant}:status_lists:{type}:{generation}]. *)
Definition generation_scoped (k : string) : Prop :=
  ∃ tenant type gen, k = StatusEngine.list_id tenant type gen.

(** The list type and the context URL that [issue_credential] uses for the
    type of status entry the options ask for. *)
Definition requested_list (status_type : Json) : option (string * string) :=
  if eq_str status_type "StatusList2021Entry" then
    Some ("StatusList2021", "https://w3id.org/vc/status-list/2021/v1")
  else if eq_str status_type "RevocationList2020Status" then
    Some ("RevocationList2020", "https://w3id.org/vc-revocation-list-2020/v1")
  else None.

(** Every write to the store that the event makes goes to the key [k]. *)
Definition writes_only_at (k : string) (ev : Event) : Prop :=
  match ev with
  | EvStore k' _ | EvUpdate k' _ => k' = k
  | _ => True
  end.

(** The outcome carries the 404 exception with the given content, raised
    or handed back. *)
Definition not_found_signal (content : Json) (o : Outcome Response) : Prop :=
  o = Raised (ValidationException 404 content)
  ∨ o = Returned (ExceptionObject (ValidationException 404 content)).


(** A route that declares no dependency. *)
Definition open_route (route : Route) : bool :=
  match route_dependencies route with
  | [] => true
  | _ :: _ => false
  end.


(** The credential of a request once [@context] is in place and an
    identifier is there: the one given, or a fresh [urn:uuid:]. *)
Definition prepared_credential `{X : Externals} (cred : Dict) (ctx : Json)
    (e : Env) : Dict :=
  let credential := PyDict.set "@context" ctx (PyDict.remove "context" cred) in
  if PyDict.mem "id" credential then credential
  else PyDict.set "id" (JStr ("urn:uuid:" +:+ uuid4 (uuid_ctr e))) credential.

(** The options the agent signs with. *)
Definition signing_options (opts : Dict) (did : string) : Dict :=
  let options := PyDict.remove "credentialStatus" opts in
  let options := PyDict.set "verificationMethod" (JStr (did +:+ "#verkey")) options in
  let options :=
    if PyDict.mem "created" options then PyDict.remove "created" options
    else options in
  PyDict.set "proofPurpose" (JStr "assertionMethod") options.


(** The options of a signing call as [issue_credential] makes them for the
    DID [did]: the method and the purpose are the router's, and neither
    [created] nor [credentialStatus] is passed on. *)
Definition signs_with (did : string) (ev : Event) : Prop :=
  match ev with
  | EvSign _ (JObj options) _ =>
      PyDict.get "verificationMethod" options = Some (JStr (did +:+ "#verkey"))
      ∧ PyDict.get "proofPurpose" options = Some (JStr "assertionMethod")
      ∧ PyDict.get "created" options = None
      ∧ PyDict.get "credentialStatus" options = None
  | EvSign _ _ _ => False
  | _ => True
  end.

(** The event is no write to the store. *)
Definition no_write (ev : Event) : Prop :=
  match ev with
  | EvStore _ _ | EvUpdate _ _ => False
  | _ => True
  end.



(** The calls to [create_entry] in a trace: label and list type. *)
Definition creates (t : list Event) : list (string * string) :=
  omap (λ ev, match ev with
              | EvCreateEntry label list_type => Some (label, list_type)
              | _ => None
              end) t.

Definition not_create (ev : Event) : Prop :=
  match ev with
  | EvCreateEntry _ _ => False
  | _ => True
  end.

(** No call, or one call for [label] with one of the two list types. *)
Definition at_most_one_entry (label : string) (calls : list (string * string))
  : Prop :=
  calls = []
  ∨ calls = [(label, "StatusList2021")]
  ∨ calls = [(label, "RevocationList2020")].

(** Every run of [m] creates at most one entry, for [label]. *)
Definition allocates {A} (label : string) (m : M A) : Prop :=
  ∀ w r w', m w = (r, w') →
    ∃ evs, trace w' = trace w ++ evs ∧ at_most_one_entry label (creates evs).

(** * Properties *)

(** ** Dictionaries *)

Lemma dict_get_set_eq (k : string) (v : Json) (d : Dict) :
  PyDict.get k (PyDict.set k v d) = Some v.
Proof.
  induction d as [|[k' v'] d IH]; simpl.
  - by rewrite String.eqb_refl.
  - destruct (String.eqb k k') eqn:E; simpl.
    + by rewrite String.eqb_refl.
    + by rewrite E.
Qed.

Lemma dict_get_set_ne (k k' : string) (v : Json) (d : Dict) :
  k ≠ k' → PyDict.get k (PyDict.set k' v d) = PyDict.get k d.
Proof.
  intros Hne. apply String.eqb_neq in Hne.
  induction d as [|[k0 v0] d IH]; simpl.
  - by rewrite Hne.
  - destruct (String.eqb k' k0) eqn:E; simpl.
    + apply String.eqb_eq in E. subst k0. by rewrite Hne.
    + by rewrite IH.
Qed.

Lemma dict_get_remove_ne (k k' : string) (d : Dict) :
  k ≠ k' → PyDict.get k (PyDict.remove k' d) = PyDict.get k d.
Proof.
  intros Hne. apply String.eqb_neq in Hne.
  induction d as [|[k0 v0] d IH]; simpl; first done.
  destruct (String.eqb k' k0) eqn:E; simpl.
  - apply String.eqb_eq in E. subst k0. by rewrite Hne.
  - by rewrite IH.
Qed.

Lemma dict_mem_set_ne (k k' : string) (v : Json) (d : Dict) :
  k ≠ k' → PyDict.mem k (PyDict.set k' v d) = PyDict.mem k d.
Proof. intros Hne. unfold PyDict.mem. by rewrite dict_get_set_ne. Qed.

Lemma dict_mem_set_eq (k : string) (v : Json) (d : Dict) :
  PyDict.mem k (PyDict.set k v d) = true.
Proof. unfold PyDict.mem. by rewrite dict_get_set_eq. Qed.

Lemma dict_mem_false (k : string) (d : Dict) :
  PyDict.get k d = None → PyDict.mem k d = false.
Proof. unfold PyDict.mem. by intros ->. Qed.

Lemma dict_mem_true (k : string) (v : Json) (d : Dict) :
  PyDict.get k d = Some v → PyDict.mem k d = true.
Proof. unfold PyDict.mem. by intros ->. Qed.

(** ** Issuing without a status entry *)

Section IssueWithoutStatus.

Context `{X : Externals}.

(** C3.  A request whose options hold no [credentialStatus] does not get
    through [issue_credential]: the status block is skipped, and the
    [options.pop("credentialStatus")] that follows it raises [KeyError];
    nothing is signed or stored and no entry is created. *)
Theorem issue_without_status_raises
    (label L : string) (request : Request) (request_body cred opts : Dict)
    (ctx : Json) (w : World) :
  is_authorized label request = inr L →
  PyDict.get "credential" request_body = Some (JObj cred) →
  PyDict.get "context" cred = Some ctx →
  PyDict.get "options" request_body = Some (JObj opts) →
  PyDict.get "credentialStatus" opts = None →
  ∃ w', issue_credential label request request_body w
          = (Raised (KeyError "credentialStatus"), w')
        ∧ store (env w') = store (env w)
        ∧ trace w' = trace w.
Proof.
  intros Hauth Hcred Hctx Hopts Hstatus.
  unfold issue_credential, bind, lift, Py.dict_getitem, Py.getitem, Py.dict_pop.
  rewrite Hauth; cbn. rewrite Hcred; cbn. rewrite Hctx; cbn.
  rewrite Hopts; cbn.
  rewrite (dict_mem_false _ _ Hstatus), Hstatus.
  destruct (PyDict.mem "id" _); cbn; eauto.
Qed.

End IssueWithoutStatus.

(** ** Strings and keys *)

Lemma count_app (c : ascii) (a b : string) :
  Str.count c (a +:+ b) = Str.count c a + Str.count c b.
Proof. induction a as [|d a IH]; simpl; [done | rewrite IH; lia]. Qed.

Lemma lower_app (a b : string) :
  Str.lower (a +:+ b) = Str.lower a +:+ Str.lower b.
Proof. induction a as [|c a IH]; simpl; [done | by rewrite IH]. Qed.






Lemma startswith_app (p s : string) : Str.startswith p (p +:+ s) = true.
Proof.
  induction p as [|c p IH]; simpl; [done |].
  by rewrite Ascii.eqb_refl, IH.
Qed.


(** A key of the scheme has at least three colons. *)
Lemma list_id_colons (tenant type : string) (gen : nat) :
  (3 ≤ Str.count Str.colon (StatusEngine.list_id tenant type gen))%nat.
Proof.
  unfold StatusEngine.list_id. rewrite !count_app. simpl. lia.
Qed.

(** ** What a handler adds to the trace *)

Section Emits.

Context `{X : Externals}.
Context (P : Event → Prop).

Lemma emits_ret {A} (a : A) : emits P (ret a).
Proof.
  intros w r w' [= <- <-]. exists []. by rewrite app_nil_r.
Qed.

Lemma emits_raise {A} (e : Exn) : emits P (raise (A := A) e).
Proof.
  intros w r w' [= <- <-]. exists []. by rewrite app_nil_r.
Qed.

Lemma emits_lift {A} (x : Exn + A) : emits P (lift x).
Proof. destruct x; [apply emits_raise | apply emits_ret]. Qed.

Lemma emits_bind {A B} (m : M A) (k : A → M B) :
  emits P m → (∀ a, emits P (k a)) → emits P (bind m k).
Proof.
  intros Hm Hk w r w'. unfold bind.
  destruct (m w) as [[a|e] w1] eqn:Em; intros Hrun.
  - destruct (Hm _ _ _ Em) as (evs1 & E1 & H1).
    destruct (Hk a _ _ _ Hrun) as (evs2 & E2 & H2).
    exists (evs1 ++ evs2). split; [| by apply Forall_app].
    by rewrite E2, E1, <- app_assoc.
  - injection Hrun as <- <-. eauto.
Qed.

Lemma emits_try {A} (m h : M A) :
  emits P m → emits P h → emits P (try_except m h).
Proof.
  intros Hm Hh w r w'. unfold try_except.
  destruct (m w) as [[a|e] w1] eqn:Em; intros Hrun.
  - injection Hrun as <- <-. eauto.
  - destruct (Hm _ _ _ Em) as (evs1 & E1 & H1).
    destruct (Hh _ _ _ Hrun) as (evs2 & E2 & H2).
    exists (evs1 ++ evs2). split; [| by apply Forall_app].
    by rewrite E2, E1, <- app_assoc.
Qed.

Lemma emits_call {A} (ev : Event) (f : Ext A) : P ev → emits P (call ev f).
Proof.
  intros Hev w r w'. unfold call.
  destruct (f (env w)) as [r0 e0]. intros [= <- <-].
  exists [ev]. split; [done | by constructor].
Qed.

Lemma emits_print (value : Json) : P (EvPrint value) → emits P (print value).
Proof.
  intros Hev w r w' [= <- <-]. exists [EvPrint value].
  split; [done | by constructor].
Qed.

Lemma emits_draw_uuid : emits P draw_uuid.
Proof.
  intros w r w' [= <- <-]. exists []. by rewrite app_nil_r.
Qed.

Lemma emits_datetime_now (tz : option Z) : emits P (datetime_now tz).
Proof.
  intros w r w' [= <- <-]. exists []. by rewrite app_nil_r.
Qed.

Lemma emits_append_at (d : Dict) (k : string) (x : Json) :
  emits P (append_at d k x).
Proof.
  unfold append_at.
  repeat first [apply emits_bind; [|intros ?] | apply emits_lift | apply emits_ret].
Qed.

Lemma emits_iadd_at (d : Dict) (k : string) (x : Json) :
  emits P (iadd_at d k x).
Proof.
  unfold iadd_at.
  repeat first [apply emits_bind; [|intros ?] | apply emits_lift | apply emits_ret].
Qed.

Lemma emits_for_each (xs : list Json) (body : Json → M unit) :
  (∀ x, emits P (body x)) → emits P (for_each xs body).
Proof.
  intros Hbody. induction xs as [|x xs IH]; simpl.
  - apply emits_ret.
  - apply emits_bind; [apply Hbody | intros _; apply IH].
Qed.

End Emits.

(** One step of a proof that a handler [emits P]: the monad's rules, a case
    split at a conditional, and the side condition of a call left to
    [simpl; auto]. *)
Ltac emits_step :=
  first
    [ apply emits_ret | apply emits_raise | apply emits_lift
    | apply emits_draw_uuid | apply emits_datetime_now
    | apply emits_append_at | apply emits_iadd_at
    | apply emits_bind; [| intros ?]
    | apply emits_try
    | apply emits_for_each; intros ?
    | apply emits_call
    | apply emits_print
    | match goal with
      | |- emits _ (if ?b then _ else _) => destruct b
      | |- emits _ (match ?x with _ => _ end) => destruct x
      end ].

Ltac emits_auto := cbv zeta; repeat emits_step.

(** Case analysis on the record a handler fetches. *)
Ltac case_fetch :=
  match goal with
  | |- context [store ?e !! ?k] => destruct (store e !! k) as [[?doc|]|]
  end.

Section Scoped.

Context `{X : Externals}.

(** After a pure step, only the value it produced matters. *)
Lemma emits_bind_lift {A B} (P : Event → Prop) (x : Exn + A) (k : A → M B) :
  (∀ a, x = inr a → emits P (k a)) → emits P (bind (lift x) k).
Proof.
  intros Hk w r w'. unfold bind. destruct x as [e|a]; simpl.
  - intros [= <- <-]. exists []. by rewrite app_nil_r.
  - by apply Hk.
Qed.









End Scoped.

(** ** Issuing with a status entry *)

Section IssueWithStatus.

Context `{X : Externals}.

Lemma issuer_id_frame (k : string) (v : Json) (d : Dict) :
  k ≠ "issuer" →
  issuer_id (JObj (PyDict.set k v d)) = issuer_id (JObj d).
Proof.
  intros Hne. unfold issuer_id, Py.getitem.
  by rewrite dict_get_set_ne.
Qed.

Lemma issuer_id_remove (k : string) (d : Dict) :
  k ≠ "issuer" →
  issuer_id (JObj (PyDict.remove k d)) = issuer_id (JObj d).
Proof.
  intros Hne. unfold issuer_id, Py.getitem.
  by rewrite dict_get_remove_ne.
Qed.

(** C8.  When the options ask for a status entry and the issuer of the
    credential is not the tenant's DID, [issue_credential] raises the 400
    "Invalid issuer" only after [create_entry] has run: the environment the
    request leaves behind is the one [create_entry] produced, the trace
    holds that one call, and nothing is signed, stored or returned. *)
Theorem invalid_issuer_after_create_entry
    (label L : string) (request : Request) (request_body cred opts : Dict)
    (items : list Json) (status status_type entry issuer_did : Json)
    (list_type url : string) (w : World) (e1 : Env) :
  is_authorized label request = inr L →
  PyDict.get "credential" request_body = Some (JObj cred) →
  PyDict.get "context" cred = Some (JArr items) →
  PyDict.get "options" request_body = Some (JObj opts) →
  PyDict.get "credentialStatus" opts = Some status →
  Py.getitem status "type" = inr status_type →
  requested_list status_type = Some (list_type, url) →
  create_entry L list_type
    (if PyDict.mem "id" cred then env w else tick_uuid (env w))
    = (Returned entry, e1) →
  issuer_id (JObj cred) = inr issuer_did →
  eq_str issuer_did (DID_WEB_BASE +:+ ":organization:" +:+ L) = false →
  issue_credential label request request_body w
    = (Raised (ValidationException 400 (message "Invalid issuer")),
       mkWorld e1 (trace w ++ [EvCreateEntry L list_type])).
Proof.
  intros Hauth Hcred Hctx Hopts Hstatus Htype Hreq Hentry Hissuer Hne.
  unfold issue_credential, bind, lift, Py.dict_getitem, Py.dict_pop.
  rewrite Hauth; cbn. rewrite Hcred; cbn. rewrite Hctx; cbn.
  rewrite Hopts; cbn.
  rewrite dict_mem_set_ne by done.
  assert (Hmem : PyDict.mem "id" (PyDict.remove "context" cred)
                 = PyDict.mem "id" cred).
  { unfold PyDict.mem. by rewrite dict_get_remove_ne. }
  rewrite Hmem. clear Hmem.
  rewrite (dict_mem_true _ _ _ Hstatus), Hstatus. cbn. rewrite Htype. cbn.
  unfold requested_list in Hreq.
  destruct (PyDict.mem "id" cred);
    destruct (eq_str status_type "StatusList2021Entry");
    [injection Hreq as <- <- | | injection Hreq as <- <- | ];
    try (destruct (eq_str status_type "RevocationList2020Status");
         [injection Hreq as <- <- | discriminate Hreq]);
    cbn; unfold append_at, call, bind, lift, Py.dict_getitem, Py.getitem; cbn;
    rewrite ?dict_get_set_eq, ?(dict_get_set_ne "@context" "id") by done;
    rewrite ?dict_get_set_eq; cbn; rewrite Hentry; cbn;
    rewrite !issuer_id_frame, issuer_id_remove, Hissuer by done; cbn;
    rewrite Hne; reflexivity.
Qed.

(** X1.  The whole of a successful issuance with a status entry: [create_entry]
    is called once, for the list type that goes with the entry type asked
    for; the entry it returns becomes the [credentialStatus] of the
    credential, whose [@context] gains the URL of that list type; the
    credential is signed, stored under the lower-case key and the signed
    credential is returned with status 201. *)
Theorem issue_binds_status_entry
    (label L : string) (request : Request) (request_body cred opts : Dict)
    (items : list Json) (status status_type entry id verkey vc : Json)
    (list_type url : string) (w : World) (e1 e2 e3 : Env) :
  let did := DID_WEB_BASE +:+ ":organization:" +:+ L in
  let credential :=
    PyDict.set "credentialStatus" entry
      (PyDict.set "@context" (JArr (items ++ [JStr url]))
         (prepared_credential cred (JArr items) (env w))) in
  let options := signing_options opts did in
  let data_key := Str.lower (credential_key L (fmt id)) in
  is_authorized label request = inr L →
  PyDict.get "credential" request_body = Some (JObj cred) →
  PyDict.get "context" cred = Some (JArr items) →
  PyDict.get "options" request_body = Some (JObj opts) →
  PyDict.get "credentialStatus" opts = Some status →
  Py.getitem status "type" = inr status_type →
  requested_list status_type = Some (list_type, url) →
  create_entry L list_type
    (if PyDict.mem "id" cred then env w else tick_uuid (env w))
    = (Returned entry, e1) →
  issuer_id (JObj cred) = inr (JStr did) →
  get_verkey (JStr did) e1 = (Returned verkey, e2) →
  sign_json_ld (JObj credential) (JObj options) verkey e2 = (Returned vc, e3) →
  PyDict.get "id" credential = Some id →
  issue_credential label request request_body w
    = (Returned (JSONResponse 201 (JObj [("verifiableCredential", vc)])),
       mkWorld (askar.put data_key (JObj credential) e3)
         (trace w ++ [EvCreateEntry L list_type;
                      EvGetVerkey (JStr did);
                      EvPrint (JObj credential);
                      EvPrint (JObj options);
                      EvSign (JObj credential) (JObj options) verkey;
                      EvStore data_key (JObj credential)])).
Proof.
  intros did credential options data_key.
  intros Hauth Hcred Hctx Hopts Hstatus Htype Hreq Hentry Hissuer Hverkey
    Hsign Hid.
  unfold issue_credential, bind, lift, Py.dict_getitem, Py.dict_pop.
  rewrite Hauth; cbn. rewrite Hcred; cbn. rewrite Hctx; cbn.
  rewrite Hopts; cbn.
  subst credential options data_key did.
  unfold prepared_credential, signing_options in *.
  rewrite dict_mem_set_ne in * by done.
  assert (Hmem : PyDict.mem "id" (PyDict.remove "context" cred)
                 = PyDict.mem "id" cred).
  { unfold PyDict.mem. by rewrite dict_get_remove_ne. }
  rewrite Hmem in *. clear Hmem.
  rewrite (dict_mem_true _ _ _ Hstatus), Hstatus. cbn. rewrite Htype. cbn.
  unfold requested_list in Hreq.
  destruct (PyDict.mem "id" cred);
    destruct (eq_str status_type "StatusList2021Entry");
    [injection Hreq as <- <- | | injection Hreq as <- <- | ];
    try (destruct (eq_str status_type "RevocationList2020Status");
         [injection Hreq as <- <- | discriminate Hreq]);
    cbn; unfold append_at, call, print, bind, lift, Py.dict_getitem, Py.getitem;
    cbn;
    rewrite ?dict_get_set_eq, ?(dict_get_set_ne "@context" "id") by done;
    rewrite ?dict_get_set_eq; cbn; rewrite Hentry; cbn;
    rewrite !issuer_id_frame, issuer_id_remove, Hissuer by done; cbn;
    rewrite String.eqb_refl; cbn;
    rewrite Hverkey; cbn; rewrite Hsign; cbn; rewrite Hid; cbn;
    by rewrite <- !app_assoc.
Qed.

End IssueWithStatus.

(** ** Updating the status of a credential *)

Section UpdateStatus.

Context `{X : Externals}.





End UpdateStatus.

(** ** The keys of the store *)

Section Keys.

Context `{X : Externals}.

Lemma status_list_key_not_scoped (L : string) :
  no_colon L → ¬ generation_scoped (status_list_key L).
Proof.
  intros Hcolon (tenant & type & gen & Hk).
  pose proof (list_id_colons tenant type gen) as Hge.
  rewrite <- Hk in Hge. unfold status_list_key in Hge.
  rewrite count_app in Hge. unfold no_colon in Hcolon.
  rewrite Hcolon in Hge. simpl in Hge. lia.
Qed.

Lemma status_lists_key_not_scoped (L list_type : string) :
  no_colon L → no_colon list_type →
  ¬ generation_scoped (status_lists_key L list_type).
Proof.
  intros HL Ht (tenant & type & gen & Hk).
  pose proof (list_id_colons tenant type gen) as Hge.
  rewrite <- Hk in Hge. unfold status_lists_key in Hge.
  rewrite !count_app in Hge. unfold no_colon in HL, Ht.
  rewrite HL, Ht in Hge. simpl in Hge. lia.
Qed.

Lemma get_status_list_credential_trace (label list_type : string) (w : World) :
  trace (snd (get_status_list_credential label list_type w))
  = trace w ++ [EvFetch (status_lists_key (format_label label) list_type)].
Proof.
  unfold get_status_list_credential, try_except, bind, call, askar.fetch_data.
  cbn. case_fetch; reflexivity.
Qed.

Lemma update_writes_status_list (label : string) (request : Request)
    (request_body : Dict) :
  emits (writes_only_at (status_list_key (resolved label request)))
        (update_credential_status label request request_body).
Proof.
  unfold update_credential_status, resolved, apply_status.
  apply emits_bind_lift. intros L ->. emits_auto; exact I || reflexivity.
Qed.

(** C2.  The retrieval endpoint reads the status list of a tenant under
    [{label}:status_lists:{list_type}], and a status update writes only
    under [{label}:status_list].  For a label and a list type without a
    colon neither key has the form
    [{tenant}:status_lists:{type}:{generation}]. *)
Theorem status_list_keys_without_generation
    (label list_type : string) (request : Request) (request_body : Dict) :
  no_colon (format_label label) →
  no_colon list_type →
  no_colon (resolved label request) →
  (∀ w, trace (snd (get_status_list_credential label list_type w))
        = trace w ++ [EvFetch (status_lists_key (format_label label) list_type)])
  ∧ emits (writes_only_at (status_list_key (resolved label request)))
          (update_credential_status label request request_body)
  ∧ ¬ generation_scoped (status_lists_key (format_label label) list_type)
  ∧ ¬ generation_scoped (status_list_key (resolved label request)).
Proof.
  intros Hl Ht Hr. repeat split.
  - apply get_status_list_credential_trace.
  - apply update_writes_status_list.
  - by apply status_lists_key_not_scoped.
  - by apply status_list_key_not_scoped.
Qed.

End Keys.

(** ** Lookups *)

Section Lookups.

Context `{X : Externals}.


Lemma get_status_list_credential_outcome (label list_type : string) (w : World) :
  match fst (askar.fetch_data ASKAR_KEY
               (status_lists_key (format_label label) list_type) (env w)) with
  | Returned doc =>
      fst (get_status_list_credential label list_type w) = Returned (Body doc)
  | Raised _ =>
      not_found_signal (message "Status list not found")
        (fst (get_status_list_credential label list_type w))
  end.
Proof.
  unfold get_status_list_credential, bind, try_except, call, not_found_signal,
    askar.fetch_data.
  cbn. case_fetch; cbn; auto.
Qed.


End Lookups.

(** ** Tenants *)

Section Tenants.

Context `{X : Externals}.





End Tenants.

(** ** Storing a credential and reading it back *)

Section RoundTrip.

Context `{X : Externals}.


Lemma bind_returned {S A B} (m : St S A) (k : A → St S B) (s s' : S) (b : B) :
  bind m k s = (Returned b, s') →
  ∃ a s1, m s = (Returned a, s1) ∧ k a s1 = (Returned b, s').
Proof.
  unfold bind. destruct (m s) as [[a|e] s1]; [eauto | done].
Qed.

Lemma lift_returned {S A} (x : Exn + A) (s s' : S) (a : A) :
  lift x s = (Returned a, s') → x = inr a ∧ s' = s.
Proof. destruct x; cbn; [done | by intros [= -> ->]]. Qed.



End RoundTrip.

(** ** Verifying a credential *)

Section Verify.

Context `{X : Externals}.



End Verify.

(** ** Routes and authorization *)

Section Routes.

Context `{X : Externals}.

Lemma serve_status_list (r : Request) (label list_type : string) (w : World) :
  req_method r = GET →
  req_path r = ["organization"; label; "credentials"; "status"; list_type] →
  label ≠ "" → list_type ≠ "" →
  serve r w = get_status_list_credential label list_type w.
Proof.
  intros Hm Hp Hl Ht. unfold serve, router, resolve.
  cbn [route_path route_method]. rewrite Hp, Hm.
  apply String.eqb_neq in Hl, Ht.
  cbn [match_path String.eqb Ascii.eqb Bool.eqb method_eqb].
  rewrite Hl, Ht. reflexivity.
Qed.

Lemma serve_guarded (r : Request) (route : Route)
    (params : list (string * string)) :
  resolve router r = Some (route, params) →
  route_endpoint route ≠ GetStatusListCredential →
  route_dependencies route = [JWTBearer]
  ∧ (∀ e w, jwt_bearer r = Some e → serve r w = (Raised e, w))
  ∧ (∀ e w, jwt_bearer r = None →
            is_authorized (param "label" params) r = inl e →
            ∃ e', serve r w = (Raised e', w)).
Proof.
  intros Hres Hep.
  assert (Hdeps : route_dependencies route = [JWTBearer]).
  { revert Hres. unfold router, resolve.
    repeat match goal with
           | |- context [match ?x with _ => _ end] => destruct x
           | |- context [if ?b then _ else _] => destruct b
           end; intros [= <- <-]; try reflexivity; try discriminate.
    all: by destruct Hep. }
  split; [exact Hdeps |]. split.
  - intros e w Hjwt. unfold serve. rewrite Hres, Hdeps.
    cbn. unfold bind. cbn. by rewrite Hjwt.
  - intros e w Hjwt Hauth. unfold serve. rewrite Hres, Hdeps.
    cbn. unfold bind. cbn. rewrite Hjwt. cbn.
    destruct (route_endpoint route); cbn;
      unfold get_credential, issue_credential, verify_credential,
        update_credential_status, bind, lift;
      rewrite ?Hauth; cbn; eauto;
      try (destruct (body_dict _ _); cbn; rewrite ?Hauth; cbn; eauto).
    by destruct Hep.
Qed.

(** C10.  Of the five routes only the status-list one declares no
    dependency.  A GET for a status list is answered by
    [get_status_list_credential] whatever the request carries: a stored list
    is returned even when the bearer check and the authorization would turn
    the request down.  Every other route runs the bearer check first and its
    endpoint starts with [is_authorized]; either one failing ends the request
    with the world untouched. *)
Theorem only_status_list_route_is_open :
  map route_endpoint (List.filter open_route router) = [GetStatusListCredential]
  ∧ (∀ r label list_type w,
       req_method r = GET →
       req_path r = ["organization"; label; "credentials"; "status"; list_type] →
       label ≠ "" → list_type ≠ "" →
       serve r w = get_status_list_credential label list_type w
       ∧ ∀ doc,
           store (env w) !! status_lists_key (format_label label) list_type
             = Some (Encoded doc) →
           fst (serve r w) = Returned (Body doc))
  ∧ (∀ r route params,
       resolve router r = Some (route, params) →
       route_endpoint route ≠ GetStatusListCredential →
       route_dependencies route = [JWTBearer]
       ∧ (∀ e w, jwt_bearer r = Some e → serve r w = (Raised e, w))
       ∧ (∀ e w, jwt_bearer r = None →
                 is_authorized (param "label" params) r = inl e →
                 ∃ e', serve r w = (Raised e', w))).
Proof.
  split; [reflexivity |]. split.
  - intros r label list_type w Hm Hp Hl Ht.
    split; [by apply serve_status_list |].
    intros doc Hdoc. rewrite (serve_status_list r label list_type) by done.
    pose proof (get_status_list_credential_outcome label list_type w) as Hout.
    unfold askar.fetch_data in Hout. by rewrite Hdoc in Hout.
  - apply serve_guarded.
Qed.

End Routes.

(** ** More on issuing *)

(** As [emits_step], keeping what a pure step returned. *)
Ltac emits_keep :=
  first [ apply emits_bind_lift; intros ? ? | emits_step ].

Section IssueMore.

Context `{X : Externals}.

Lemma dict_get_remove_eq (k : string) (d : Dict) :
  PyDict.get k (PyDict.remove k d) = None.
Proof.
  induction d as [|[k' v] d IH]; simpl; [done |].
  destruct (String.eqb k k') eqn:E; simpl; [done | by rewrite E].
Qed.

Lemma eq_str_true (j : Json) (s : string) : eq_str j s = true → j = JStr s.
Proof.
  destruct j; simpl; try done. intros H. by apply String.eqb_eq in H as ->.
Qed.

Lemma call_returned {A} (ev : Event) (f : Ext A) (w w' : World) (a : A) :
  call ev f w = (Returned a, w') →
  f (env w) = (Returned a, env w') ∧ trace w' = trace w ++ [ev].
Proof.
  unfold call. destruct (f (env w)) as [r e']. by intros [= -> <-].
Qed.

Lemma print_returned (value : Json) (w w' : World) (u : unit) :
  print value w = (Returned u, w') →
  env w' = env w ∧ trace w' = trace w ++ [EvPrint value].
Proof. unfold print. by intros [= _ <-]. Qed.

(** What a request that [issue_credential] answers has gone through, from
    the issuer check on. *)
Lemma issue_credential_answered (label : string) (request : Request)
    (request_body : Dict) (w w' : World) (r : Response) :
  issue_credential label request request_body w = (Returned r, w') →
  ∃ L cred options id verkey vc e2 e3,
    is_authorized label request = inr L
    ∧ issuer_id (JObj cred)
      = inr (JStr (DID_WEB_BASE +:+ ":organization:" +:+ L))
    ∧ PyDict.get "id" cred = Some id
    ∧ sign_json_ld (JObj cred) (JObj options) verkey e2 = (Returned vc, e3)
    ∧ env w' = askar.put (Str.lower (credential_key L (fmt id))) (JObj cred) e3
    ∧ r = JSONResponse 201 (JObj [("verifiableCredential", vc)]).
Proof.
  unfold issue_credential. intros H.
  apply bind_returned in H as (L & w1 & Hauth & H).
  apply lift_returned in Hauth as [Hauth _].
  repeat first
    [ apply bind_returned in H as (? & ? & ? & H); cbv beta zeta in H
    | match type of H with
      | (if ?b then _ else _) _ = _ =>
          destruct b eqn:Hcheck; [discriminate H |]
      end ].
  injection H as <- <-.
  apply negb_false_iff, eq_str_true in Hcheck.
  match goal with
  | Hiss : lift (issuer_id (JObj ?cred)) _ = (Returned ?did, _),
    Hid : lift (Py.dict_getitem ?cred "id") _ = (Returned ?id, _),
    Hsign : call (EvSign _ (JObj ?options) ?verkey) _ ?s2 = (Returned ?vc, ?s3),
    Hstore : call (EvStore _ _) _ _ = (_, ?s') |- _ =>
      exists L, cred, options, id, verkey, vc, (env s2), (env s3);
      apply lift_returned in Hiss as [Hiss _];
      apply lift_returned in Hid as [Hid ->];
      apply call_returned in Hsign as [Hsign _];
      unfold call, askar.store_data in Hstore;
      injection Hstore as _ <-;
      unfold Py.dict_getitem, Py.getitem in Hid;
      destruct (PyDict.get "id" cred) as [v|] eqn:Hget; [|done];
      injection Hid as ->
  end.
  subst. done.
Qed.

(** X3.  Whatever [issue_credential] answers with 201 it has checked and
    stored: the issuer of the credential is the DID of the tenant the request
    was authorized for, the document put in the store is the credential as
    it was handed to the signer (not the signed credential), under the
    lower-case key, and the response carries what the signer returned. *)
Theorem issue_answer_invariants (label : string) (request : Request)
    (request_body : Dict) (w w' : World) (r : Response) :
  issue_credential label request request_body w = (Returned r, w') →
  ∃ L cred options id verkey vc e2 e3,
    is_authorized label request = inr L
    ∧ issuer_id (JObj cred)
      = inr (JStr (DID_WEB_BASE +:+ ":organization:" +:+ L))
    ∧ PyDict.get "id" cred = Some id
    ∧ sign_json_ld (JObj cred) (JObj options) verkey e2 = (Returned vc, e3)
    ∧ store (env w') !! Str.lower (credential_key L (fmt id))
      = Some (Encoded (JObj cred))
    ∧ r = JSONResponse 201 (JObj [("verifiableCredential", vc)]).
Proof.
  intros Hrun.
  destruct (issue_credential_answered _ _ _ _ _ _ Hrun)
    as (L & cred & options & id & verkey & vc & e2 & e3
        & Hauth & Hiss & Hid & Hsign & Henv & Hr).
  exists L, cred, options, id, verkey, vc, e2, e3.
  repeat split; try done.
  rewrite Henv. cbn. apply lookup_insert_eq.
Qed.

Lemma signing_options_facts (opts : Dict) (did : string) :
  let options := signing_options opts did in
  PyDict.get "verificationMethod" options = Some (JStr (did +:+ "#verkey"))
  ∧ PyDict.get "proofPurpose" options = Some (JStr "assertionMethod")
  ∧ PyDict.get "created" options = None
  ∧ PyDict.get "credentialStatus" options = None.
Proof.
  unfold signing_options. cbv zeta.
  set (o1 := PyDict.set "verificationMethod" _ _).
  assert (H1 : PyDict.get "verificationMethod" o1 = Some (JStr (did +:+ "#verkey")))
    by apply dict_get_set_eq.
  assert (H2 : PyDict.get "credentialStatus" o1 = None).
  { unfold o1. rewrite dict_get_set_ne by done. apply dict_get_remove_eq. }
  rewrite dict_get_set_eq, !dict_get_set_ne by done.
  unfold PyDict.mem.
  destruct (PyDict.get "created" o1) eqn:Hc.
  - rewrite dict_get_remove_eq, !dict_get_remove_ne by done. done.
  - done.
Qed.

(** X4.  Whatever the request says, the options [issue_credential] hands to
    the signer name the tenant's own key ([{did}#verkey]) as verification
    method and [assertionMethod] as proof purpose, and carry neither
    [created] nor [credentialStatus]: a caller cannot choose the method or
    the purpose. *)
Theorem issue_signing_options (label : string) (request : Request)
    (request_body : Dict) :
  emits (signs_with (DID_WEB_BASE +:+ ":organization:" +:+ resolved label request))
        (issue_credential label request request_body).
Proof.
  unfold issue_credential, resolved.
  apply emits_bind_lift. intros L ->.
  cbv zeta. repeat emits_keep; try exact I.
  match goal with
  | Hpop : Py.dict_pop "credentialStatus" ?opts = inr ?popped |- _ =>
      unfold Py.dict_pop in Hpop;
      destruct (PyDict.get "credentialStatus" opts); [|done];
      injection Hpop as <-;
      exact (signing_options_facts opts _)
  end.
Qed.

(** X5.  A status entry of a type other than [StatusList2021Entry] and
    [RevocationList2020Status] is passed over in silence: [create_entry] is
    not called, the credential is signed and stored with no
    [credentialStatus] and with the [@context] it came with, and the request
    is answered with 201. *)
Theorem issue_ignores_unknown_status_type
    (label L : string) (request : Request) (request_body cred opts : Dict)
    (ctx status status_type id verkey vc : Json) (w : World) (e2 e3 : Env) :
  let did := DID_WEB_BASE +:+ ":organization:" +:+ L in
  let credential := prepared_credential cred ctx (env w) in
  let options := signing_options opts did in
  let data_key := Str.lower (credential_key L (fmt id)) in
  is_authorized label request = inr L →
  PyDict.get "credential" request_body = Some (JObj cred) →
  PyDict.get "context" cred = Some ctx →
  PyDict.get "options" request_body = Some (JObj opts) →
  PyDict.get "credentialStatus" opts = Some status →
  Py.getitem status "type" = inr status_type →
  requested_list status_type = None →
  issuer_id (JObj cred) = inr (JStr did) →
  get_verkey (JStr did)
    (if PyDict.mem "id" cred then env w else tick_uuid (env w))
    = (Returned verkey, e2) →
  sign_json_ld (JObj credential) (JObj options) verkey e2 = (Returned vc, e3) →
  PyDict.get "id" credential = Some id →
  PyDict.get "credentialStatus" cred = None →
  issue_credential label request request_body w
    = (Returned (JSONResponse 201 (JObj [("verifiableCredential", vc)])),
       mkWorld (askar.put data_key (JObj credential) e3)
         (trace w ++ [EvGetVerkey (JStr did);
                      EvPrint (JObj credential);
                      EvPrint (JObj options);
                      EvSign (JObj credential) (JObj options) verkey;
                      EvStore data_key (JObj credential)]))
  ∧ PyDict.get "credentialStatus" credential = None
  ∧ PyDict.get "@context" credential = Some ctx.
Proof.
  intros did credential options data_key.
  intros Hauth Hcred Hctx Hopts Hstatus Htype Hreq Hissuer Hverkey Hsign Hid
    Hnone.
  assert (Hmem : PyDict.mem "id" (PyDict.remove "context" cred)
                 = PyDict.mem "id" cred).
  { unfold PyDict.mem. by rewrite dict_get_remove_ne. }
  split; [| split].
  - unfold issue_credential, bind, lift, Py.dict_getitem, Py.dict_pop.
    rewrite Hauth; cbn. rewrite Hcred; cbn. rewrite Hctx; cbn.
    rewrite Hopts; cbn.
    subst credential options data_key did.
    unfold prepared_credential, signing_options in *.
    rewrite dict_mem_set_ne in * by done.
    rewrite Hmem in *.
    rewrite (dict_mem_true _ _ _ Hstatus), Hstatus. cbn. rewrite Htype. cbn.
    unfold requested_list in Hreq.
    destruct (eq_str status_type "StatusList2021Entry"); [discriminate Hreq |].
    destruct (eq_str status_type "RevocationList2020Status");
      [discriminate Hreq |].
    destruct (PyDict.mem "id" cred);
      cbn; unfold call, print, bind, lift, Py.dict_getitem, Py.getitem; cbn;
      rewrite ?issuer_id_frame, issuer_id_remove, Hissuer by done; cbn;
      rewrite String.eqb_refl; cbn;
      rewrite Hverkey; cbn; rewrite Hsign; cbn; rewrite Hid; cbn;
      by rewrite <- !app_assoc.
  - subst credential. unfold prepared_credential.
    rewrite dict_mem_set_ne, Hmem by done.
    destruct (PyDict.mem "id" cred);
      rewrite !dict_get_set_ne, dict_get_remove_ne by done; done.
  - subst credential. unfold prepared_credential.
    rewrite dict_mem_set_ne, Hmem by done.
    destruct (PyDict.mem "id" cred);
      rewrite ?(dict_get_set_ne "@context" "id") by done;
      apply dict_get_set_eq.
Qed.

(** X6.  A request that asks for a status entry of a supported type while
    the [context] of its credential is not a list fails on
    [credential["@context"].append] with [AttributeError]; this happens
    before [create_entry], so no entry is created, and nothing is signed or
    stored. *)
Theorem issue_context_must_be_a_list
    (label L : string) (request : Request) (request_body cred opts : Dict)
    (ctx status status_type : Json) (list_type url : string) (w : World) :
  is_authorized label request = inr L →
  PyDict.get "credential" request_body = Some (JObj cred) →
  PyDict.get "context" cred = Some ctx →
  (∀ items, ctx ≠ JArr items) →
  PyDict.get "options" request_body = Some (JObj opts) →
  PyDict.get "credentialStatus" opts = Some status →
  Py.getitem status "type" = inr status_type →
  requested_list status_type = Some (list_type, url) →
  ∃ w', issue_credential label request request_body w
          = (Raised AttributeError, w')
        ∧ trace w' = trace w
        ∧ store (env w') = store (env w).
Proof.
  intros Hauth Hcred Hctx Hlist Hopts Hstatus Htype Hreq.
  assert (Happend : ∀ x, Py.append ctx x = inl AttributeError).
  { intros x. destruct ctx; try done. by destruct (Hlist items). }
  unfold issue_credential, bind, lift, Py.dict_getitem, Py.dict_pop.
  rewrite Hauth; cbn. rewrite Hcred; cbn. rewrite Hctx; cbn.
  rewrite Hopts; cbn.
  rewrite (dict_mem_true _ _ _ Hstatus), Hstatus. cbn. rewrite Htype. cbn.
  unfold requested_list in Hreq.
  destruct (PyDict.mem "id" _);
    destruct (eq_str status_type "StatusList2021Entry");
    try (destruct (eq_str status_type "RevocationList2020Status");
         [| discriminate Hreq]);
    cbn; unfold append_at, bind, lift, Py.dict_getitem, Py.getitem; cbn;
    rewrite ?dict_get_set_eq, ?(dict_get_set_ne "@context" "id") by done;
    rewrite ?dict_get_set_eq; cbn; rewrite Happend; cbn; eauto.
Qed.

End IssueMore.

(** ** How many entries an issuance creates *)

Section Allocation.

Context `{X : Externals}.

Lemma creates_none (evs : list Event) :
  Forall not_create evs → creates evs = [].
Proof.
  induction 1 as [|ev evs Hev _ IH]; [done |].
  unfold creates in *. cbn. rewrite IH. by destruct ev.
Qed.

Lemma creates_app (a b : list Event) :
  creates (a ++ b) = creates a ++ creates b.
Proof. apply omap_app. Qed.

Lemma allocates_of_emits {A} (L : string) (m : M A) :
  emits not_create m → allocates L m.
Proof.
  intros Hm w r w' Hrun. destruct (Hm _ _ _ Hrun) as (evs & Ht & Hevs).
  exists evs. split; [done |]. left. by apply creates_none.
Qed.

Lemma allocates_bind_l {A B} (L : string) (m : M A) (k : A → M B) :
  emits not_create m → (∀ a, allocates L (k a)) → allocates L (bind m k).
Proof.
  intros Hm Hk w r w'. unfold bind.
  destruct (m w) as [[a|e] w1] eqn:Em; intros Hrun.
  - destruct (Hm _ _ _ Em) as (evs1 & E1 & H1).
    destruct (Hk a _ _ _ Hrun) as (evs2 & E2 & H2).
    exists (evs1 ++ evs2). split; [by rewrite E2, E1, <- app_assoc |].
    by rewrite creates_app, (creates_none evs1).
  - injection Hrun as <- <-.
    destruct (Hm _ _ _ Em) as (evs1 & E1 & H1).
    exists evs1. split; [done |]. left. by apply creates_none.
Qed.

Lemma allocates_bind_r {A B} (L : string) (m : M A) (k : A → M B) :
  allocates L m → (∀ a, emits not_create (k a)) → allocates L (bind m k).
Proof.
  intros Hm Hk w r w'. unfold bind.
  destruct (m w) as [[a|e] w1] eqn:Em; intros Hrun.
  - destruct (Hm _ _ _ Em) as (evs1 & E1 & H1).
    destruct (Hk a _ _ _ Hrun) as (evs2 & E2 & H2).
    exists (evs1 ++ evs2). split; [by rewrite E2, E1, <- app_assoc |].
    by rewrite creates_app, (creates_none evs2), app_nil_r.
  - injection Hrun as <- <-. exact (Hm _ _ _ Em).
Qed.

Lemma allocates_bind_lift {A B} (L : string) (x : Exn + A) (k : A → M B) :
  (∀ a, x = inr a → allocates L (k a)) → allocates L (bind (lift x) k).
Proof.
  intros Hk w r w'. unfold bind. destruct x as [e|a]; simpl.
  - intros [= <- <-]. exists []. rewrite app_nil_r. split; [done | by left].
  - by apply Hk.
Qed.

Lemma allocates_create (L list_type : string) (f : Ext Json) :
  list_type = "StatusList2021" ∨ list_type = "RevocationList2020" →
  allocates L (call (EvCreateEntry L list_type) f).
Proof.
  intros Ht w r w' Hrun. unfold call in Hrun.
  destruct (f (env w)) as [r0 e0]. injection Hrun as <- <-.
  exists [EvCreateEntry L list_type]. split; [done |].
  right. destruct Ht as [-> | ->]; [by left | by right].
Qed.

(** What a step of the handler contributes, found by its shape. *)
Ltac allocates_step :=
  first
    [ apply allocates_bind_l; [solve [emits_auto; exact I] | intros ?]
    | apply allocates_create; solve [auto]
    | apply allocates_of_emits; solve [emits_auto; exact I]
    | apply allocates_bind_r; [| intros ?; solve [emits_auto; exact I]]
    | match goal with
      | |- allocates _ (if ?b then _ else _) => destruct b
      end ].

(** X14.  One issuance creates at most one status entry: in every run of
    [issue_credential], answered or failed, [create_entry] is called either
    not at all or once, for the label the request was authorized for, with
    list type [StatusList2021] or [RevocationList2020]. *)
Theorem issue_creates_at_most_one_entry (label : string) (request : Request)
    (request_body : Dict) :
  allocates (resolved label request)
    (issue_credential label request request_body).
Proof.
  unfold issue_credential, resolved.
  apply allocates_bind_lift. intros L ->.
  cbv zeta. repeat allocates_step.
Qed.

End Allocation.

(** ** When two credentials share a key *)

Section KeysMore.

Context `{X : Externals}.



End KeysMore.

(** ** More on updating *)

Section UpdateMore.

Context `{X : Externals}.






(** X8.  The update finds what the issuance stored.  After an answered
    issuance, a status update for the same identifier, in any
    capitalisation, fetches the stored credential, takes the key of the
    tenant's DID and applies its batch to that credential with the options
    [{did}#verkey] and [AssertionMethod]; with an empty batch it answers 200
    and writes nothing. *)
Theorem update_works_on_issued_credential (label : string) (request : Request)
    (request_body : Dict) (w w' : World) (r : Response) :
  issue_credential label request request_body w = (Returned r, w') →
  ∃ L cred id,
    is_authorized label request = inr L
    ∧ PyDict.get "id" cred = Some id
    ∧ ∀ credential_id statuses t verkey e2,
        let did := DID_WEB_BASE +:+ ":organization:" +:+ L in
        let options :=
          JObj [("verificationMethod", JStr (did +:+ "#verkey"));
                ("proofPurpose", JStr "AssertionMethod")] in
        Str.lower (fmt credential_id) = Str.lower (fmt id) →
        get_verkey (JStr did) (env w') = (Returned verkey, e2) →
        update_credential_status label request
          (status_request credential_id statuses) (mkWorld (env w') t)
        = match for_each statuses (apply_status L (JObj cred) options verkey)
                  (mkWorld e2
                     (t ++ [EvFetch (Str.lower (credential_key L (fmt id)));
                            EvGetVerkey (JStr did)])) with
          | (Returned _, w2) =>
              (Returned (JSONResponse 200 (message "Status updated")), w2)
          | (Raised e, w2) => (Raised e, w2)
          end.
Proof.
  intros Hrun.
  destruct (issue_credential_answered _ _ _ _ _ _ Hrun)
    as (L & cred & options & id & verkey0 & vc & e20 & e3
        & Hauth & Hiss & Hid & _ & Henv & _).
  exists L, cred, id. repeat split; try done.
  intros cid statuses t verkey e2 did opts Hlow Hverkey.
  assert (Hkey : Str.lower (credential_key L (fmt cid))
                 = Str.lower (credential_key L (fmt id))).
  { unfold credential_key. rewrite !lower_app. by rewrite Hlow. }
  unfold update_credential_status, status_request, bind, lift, call,
    Py.dict_getitem, Py.iter, askar.fetch_data.
  rewrite Hauth. cbn. rewrite Hkey, Henv. cbn.
  rewrite lookup_insert_eq. cbn. rewrite Hiss. cbn.
  subst did opts. rewrite Henv in Hverkey. rewrite Hverkey. cbn.
  rewrite <- app_assoc. cbn.
  by destruct (for_each statuses _ _) as [[[]|e] w2].
Qed.

(** X9.  A status update whose credential cannot be fetched ends there: the
    exception of the fetch reaches the caller as it is (it is not turned
    into a 404), and neither the agent nor the status-list controller has
    been called. *)
Theorem update_stops_at_failed_fetch (label L : string) (request : Request)
    (request_body : Dict) (credential_id statuses : Json) (w : World)
    (e : Exn) (e' : Env) :
  let data_key := Str.lower (credential_key L (fmt credential_id)) in
  is_authorized label request = inr L →
  PyDict.get "credentialId" request_body = Some credential_id →
  PyDict.get "credentialStatus" request_body = Some statuses →
  askar.fetch_data ASKAR_KEY data_key (env w) = (Raised e, e') →
  update_credential_status label request request_body w
    = (Raised e, mkWorld e' (trace w ++ [EvFetch data_key])).
Proof.
  intros data_key Hauth Hcid Hst Hfetch.
  unfold update_credential_status, bind, lift, call, Py.dict_getitem,
    Py.getitem.
  rewrite Hauth. cbn. rewrite Hcid. cbn. rewrite Hst. cbn.
  fold data_key. by rewrite Hfetch.
Qed.

End UpdateMore.

(** ** More on verifying and reading *)

Section VerifyMore.

Context `{X : Externals}.

(** The credential a verification request is about, once [context] has
    become [@context]. *)
Lemma renamed_context_frame (k : string) (vc : Dict) (ctx : Json) :
  k ≠ "@context" → k ≠ "context" →
  PyDict.get k (PyDict.set "@context" ctx (PyDict.remove "context" vc))
  = PyDict.get k vc.
Proof.
  intros H1 H2. by rewrite dict_get_set_ne, dict_get_remove_ne.
Qed.

(** X10.  A failure of the status check is not caught: when
    [get_credential_status] raises, [verify_credential] raises the same
    exception, and the agent is never asked to verify the proof. *)
Theorem verify_status_failure_propagates
    (label L : string) (request : Request) (request_body vc : Dict)
    (ctx claim status_type : Json) (checks : list Json) (w : World)
    (e : Exn) (e1 : Env) :
  let credential :=
    JObj (PyDict.set "@context" ctx (PyDict.remove "context" vc)) in
  is_authorized label request = inr L →
  PyDict.get "verifiableCredential" request_body = Some (JObj vc) →
  PyDict.get "context" vc = Some ctx →
  PyDict.get "credentialStatus" vc = Some claim →
  Py.getitem claim "type" = inr status_type →
  PyDict.get "checks" CredentialVerificationResponse = Some (JArr checks) →
  get_credential_status credential status_type (env w) = (Raised e, e1) →
  verify_credential label request request_body w
    = (Raised e,
       mkWorld e1 (trace w ++ [EvGetCredentialStatus credential status_type])).
Proof.
  intros credential Hauth Hvc Hctx Hclaim Htype Hchecks Hstatus.
  unfold verify_credential, bind, lift, Py.dict_getitem, Py.dict_pop.
  rewrite Hauth; cbn. rewrite Hvc; cbn. rewrite Hctx; cbn.
  unfold PyDict.mem. rewrite !renamed_context_frame by done.
  rewrite Hclaim. cbn. rewrite Htype. cbn.
  unfold iadd_at, bind, lift, call, Py.dict_getitem, Py.getitem.
  rewrite Hchecks. cbn. fold credential. by rewrite Hstatus.
Qed.

(** X11.  Three endpoints never write: [get_credential],
    [get_status_list_credential] and [verify_credential] make no
    [store_data] or [update_data] call, [verify_credential] does not touch
    the store at all, and the two lookups leave the environment as they
    found it. *)
Theorem reading_endpoints_do_not_write
    (label credential_id list_type : string) (request : Request)
    (request_body : Dict) :
  emits no_write (get_credential label credential_id request)
  ∧ emits no_write (get_status_list_credential label list_type)
  ∧ emits (λ ev, store_key ev = None)
      (verify_credential label request request_body)
  ∧ (∀ w, env (snd (get_credential label credential_id request w)) = env w)
  ∧ (∀ w, env (snd (get_status_list_credential label list_type w)) = env w).
Proof.
  split; [| split; [| split; [| split]]].
  - unfold get_credential. emits_auto. exact I.
  - unfold get_status_list_credential. emits_auto. exact I.
  - unfold verify_credential. emits_auto; reflexivity.
  - intros w. unfold get_credential, bind, lift, try_except, call,
      askar.fetch_data.
    destruct (is_authorized label request) as [e|L]; cbn; [done |].
    by case_fetch.
  - intros w. unfold get_status_list_credential, bind, try_except, call,
      askar.fetch_data. cbn. by case_fetch.
Qed.

(** X12.  The closing [try ... except] of [verify_credential] lets no
    answer of the agent fail the request.  For a credential with no status
    and no expiration date, and a verification record whose [checks] and
    [errors] are lists, any document the agent returns (with or without a
    ["verified"] field, an object or not) is sent back with status 200. *)
Theorem verify_answers_whatever_agent_returns
    (label L : string) (request : Request) (request_body vc : Dict)
    (ctx verified : Json) (checks errors : list Json) (w : World) (e1 : Env) :
  let credential :=
    JObj (PyDict.set "@context" ctx (PyDict.remove "context" vc)) in
  is_authorized label request = inr L →
  PyDict.get "verifiableCredential" request_body = Some (JObj vc) →
  PyDict.get "context" vc = Some ctx →
  PyDict.get "credentialStatus" vc = None →
  PyDict.get "expirationDate" vc = None →
  PyDict.get "checks" CredentialVerificationResponse = Some (JArr checks) →
  PyDict.get "errors" CredentialVerificationResponse = Some (JArr errors) →
  agent_verify_credential credential (env w) = (Returned verified, e1) →
  verify_credential label request request_body w
    = (Returned (JSONResponse 200 verified),
       mkWorld e1 (trace w ++ [EvPrint credential; EvVerify credential])).
Proof.
  intros credential Hauth Hvc Hctx Hnostatus Hnoexp Hchecks Herrors Hagent.
  unfold verify_credential, bind, lift, Py.dict_getitem, Py.dict_pop.
  rewrite Hauth; cbn. rewrite Hvc; cbn. rewrite Hctx; cbn.
  unfold PyDict.mem. rewrite !renamed_context_frame by done.
  rewrite Hnostatus, Hnoexp. cbn.
  unfold call, print. cbn. fold credential. rewrite Hagent. cbn.
  unfold append_at, bind, lift, Py.dict_getitem, Py.getitem.
  rewrite Hchecks. cbn. rewrite <- app_assoc. cbn.
  unfold try_except.
  destruct (PyDict.get "warnings" CredentialVerificationResponse)
    as [ws|] eqn:Hwarn.
  all: destruct verified as [| | | | |d]; cbn;
    repeat (progress
              (rewrite ?dict_get_set_eq, ?dict_get_set_ne, ?Herrors, ?Hwarn
                 by done; cbn));
    try done.
  all: destruct (PyDict.get "verified" d) as [flag|]; cbn;
    repeat (progress
              (rewrite ?dict_get_set_eq, ?dict_get_set_ne, ?Herrors, ?Hwarn
                 by done; cbn));
    try done.
  all: destruct (truthy flag); cbn;
    repeat (progress
              (rewrite ?dict_get_set_eq, ?dict_get_set_ne, ?Herrors, ?Hwarn
                 by done; cbn));
    try done.
  all: match goal with
       | |- context [(?n =? 0)%nat] => destruct (n =? 0)%nat
       end; cbn;
    repeat (progress
              (rewrite ?dict_get_set_eq, ?dict_get_set_ne, ?Herrors, ?Hwarn
                 by done; cbn));
    try done.
  all: destruct ws; cbn;
    repeat (progress
              (rewrite ?dict_get_set_eq, ?dict_get_set_ne, ?Herrors, ?Hwarn
                 by done; cbn));
    done.
Qed.

(** X16.  An expiration date that [datetime.fromisoformat] does not accept
    fails the request: the exception is raised before the credential is
    printed or handed to the agent, and the closing [try ... except] does not
    cover it. *)
Theorem verify_expiry_failure_propagates
    (label L : string) (request : Request) (request_body vc : Dict)
    (ctx expiration : Json) (checks : list Json) (w : World) (e : Exn) :
  is_authorized label request = inr L →
  PyDict.get "verifiableCredential" request_body = Some (JObj vc) →
  PyDict.get "context" vc = Some ctx →
  PyDict.get "credentialStatus" vc = None →
  PyDict.get "expirationDate" vc = Some expiration →
  PyDict.get "checks" CredentialVerificationResponse = Some (JArr checks) →
  fromisoformat expiration = inl e →
  verify_credential label request request_body w = (Raised e, w).
Proof.
  intros Hauth Hvc Hctx Hnostatus Hexp Hchecks Hiso.
  unfold verify_credential, bind, lift, Py.dict_getitem, Py.dict_pop.
  rewrite Hauth; cbn. rewrite Hvc; cbn. rewrite Hctx; cbn.
  unfold PyDict.mem. rewrite !renamed_context_frame by done.
  rewrite Hnostatus, Hexp. cbn.
  unfold append_at, bind, lift, Py.dict_getitem, Py.getitem.
  rewrite Hchecks. cbn. by rewrite Hiso.
Qed.

End VerifyMore.

(** ** More on the routes *)

Section RoutesMore.

Context `{X : Externals}.

(** X13.  The five routes do not overlap: a request whose path and method
    match a route of the table is resolved to that route, whatever its place
    in the table. *)
Theorem routes_do_not_overlap (r : Request) (route : Route)
    (params : list (string * string)) :
  route ∈ router →
  match_path (route_path route) (req_path r) = Some params →
  route_method route = req_method r →
  resolve router r = Some (route, params).
Proof.
  destruct r as [m p a b]. cbn [req_path req_method].
  unfold router. rewrite !elem_of_cons, elem_of_nil.
  intros [-> | [-> | [-> | [-> | [-> | []]]]]];
    cbn [route_path route_method];
    intros Hmatch <-;
    destruct p as [|s1 [|s2 [|s3 [|s4 [|s5 [|s6 p]]]]]];
    cbn [match_path] in Hmatch; try discriminate Hmatch;
    repeat match type of Hmatch with
           | context [String.eqb ?x ?y] => destruct (String.eqb x y) eqn:?
           end;
    try discriminate Hmatch;
    injection Hmatch as <-;
    cbn [resolve match_path route_path route_method req_path req_method
           method_eqb];
    repeat match goal with
           | H : String.eqb _ _ = _ |- _ => rewrite H
           end;
    repeat match goal with
           | |- context [String.eqb ?x ?y] => destruct (String.eqb x y) eqn:?
           end;
    try reflexivity;
    repeat match goal with
           | H : String.eqb _ _ = true |- _ => apply String.eqb_eq in H
           end;
    congruence.
Qed.

End RoutesMore.

(** * The deployment: the theorems at work, and where the specification
      and the code part ways *)

Module Scenarios.

Import Deployment.

Local Existing Instance externals.

Lemma issue_without_status_raises_witness :
  ∃ w', issue_credential "acme" acme (issue_body "urn:uuid:1" acme_did []) world0
          = (Raised (KeyError "credentialStatus"), w')
        ∧ store (env w') = store (env world0)
        ∧ trace w' = trace world0.
Proof.
  eapply (issue_without_status_raises "acme" "acme"); reflexivity.
Defined.

Lemma invalid_issuer_after_create_entry_witness :
  next_index (env world0) = None
  ∧ ∃ e1,
      next_index e1 = Some 1
      ∧ store e1 !! "acme:credentials:urn:uuid:1" = None
      ∧ issue_credential "acme" acme
          (issue_body "urn:uuid:1" "did:web:example.com:organization:globex"
             with_status) world0
        = (Raised (ValidationException 400 (message "Invalid issuer")),
           mkWorld e1 (trace world0 ++ [EvCreateEntry "acme" "StatusList2021"])).
Proof.
  split; [vm_compute; reflexivity |].
  eexists. split; [| split];
    [ | | eapply (invalid_issuer_after_create_entry "acme" "acme");
          try reflexivity; vm_compute; reflexivity ].
  - vm_compute. reflexivity.
  - vm_compute. reflexivity.
Defined.

Lemma acme_no_colon : no_colon "acme".
Proof. reflexivity. Qed.



Lemma status_list_keys_without_generation_witness :
  (∀ w, trace (snd (get_status_list_credential "acme" "StatusList2021" w))
        = trace w ++ [EvFetch "acme:status_lists:StatusList2021"])
  ∧ emits (writes_only_at "acme:status_list")
          (update_credential_status "acme" acme
             (status_request (JStr "urn:uuid:1") [set_status (JBool true)]))
  ∧ ¬ generation_scoped "acme:status_lists:StatusList2021"
  ∧ ¬ generation_scoped "acme:status_list".
Proof.
  exact (status_list_keys_without_generation "acme" "StatusList2021" acme
           (status_request (JStr "urn:uuid:1") [set_status (JBool true)])
           eq_refl eq_refl eq_refl).
Defined.

(** C2, refuted as stated: the key read for the [StatusList2021] list of
    [acme] and the key written when a status of [acme] is updated are not of
    the form [{tenant}:status_lists:{type}:{generation}]. *)
Lemma router_keys_lack_generation :
  trace (snd (get_status_list_credential "acme" "StatusList2021" world0))
    = [EvFetch "acme:status_lists:StatusList2021"]
  ∧ (∀ tenant type gen,
       StatusEngine.list_id tenant type gen ≠ "acme:status_lists:StatusList2021")
  ∧ written_keys
      (trace (snd (update_credential_status "acme" acme
                     (status_request (JStr "urn:uuid:1") [set_status (JBool true)])
                     issued)))
    = ["acme:status_list"]
  ∧ (∀ tenant type gen,
       StatusEngine.list_id tenant type gen ≠ "acme:status_list").
Proof.
  split; [vm_compute; reflexivity |].
  split; [| split; [vm_compute; reflexivity |]].
  - intros tenant type gen Hk.
    apply (status_lists_key_not_scoped "acme" "StatusList2021");
      [reflexivity | reflexivity |].
    by exists tenant, type, gen.
  - intros tenant type gen Hk.
    apply (status_list_key_not_scoped "acme" acme_no_colon).
    by exists tenant, type, gen.
Qed.








(** The two sides of the round trip: an identifier in lower case is read
    back, one with capitals is not. *)
Example lower_case_id_is_read_back :
  let run := issue_credential "acme" acme
               (issue_body "urn:uuid:1" acme_did with_status) world0 in
  ∃ doc, fst (get_credential "acme" "urn:uuid:1" acme (snd run))
         = Returned (Body doc).
Proof. eexists. vm_compute. reflexivity. Qed.

Example upper_case_id_is_not_read_back :
  let run := issue_credential "acme" acme
               (issue_body "urn:uuid:AB12" acme_did with_status) world0 in
  (∃ vc, fst run = Returned (JSONResponse 201 (JObj [("verifiableCredential", vc)])))
  ∧ written_keys (trace (snd run)) = ["acme:credentials:urn:uuid:ab12"]
  ∧ fst (get_credential "acme" "urn:uuid:AB12" acme (snd run))
    = Raised (ValidationException 404
                (message "credential urn:uuid:AB12 not found")).
Proof.
  repeat split; try (vm_compute; reflexivity).
  eexists. vm_compute. reflexivity.
Qed.

(** C5.  The credential [urn:uuid:1] after it was revoked: the status check
    of [verify_credential] reads a set bit, and the response is the answer of
    the agent, [{"verified": true}], the same as before the revocation.  The
    [verification] record with its "revoked" error is built and dropped. *)
Theorem verify_response_ignores_status :
  let vc := JObj [("id", JStr "urn:uuid:1");
                  ("credentialStatus", status_claim)] in
  fst (get_credential_status vc (JStr "StatusList2021") (env issued))
    = Returned (JBool false)
  ∧ fst (get_credential_status vc (JStr "StatusList2021") (env revoked))
    = Returned (JBool true)
  ∧ (∃ vc' ty, trace (snd (verify_credential "acme" acme verify_body revoked))
               = [EvGetCredentialStatus vc' ty; EvPrint vc'; EvVerify vc']
             ∧ fst (get_credential_status vc' ty (env revoked))
               = Returned (JBool true))
  ∧ fst (verify_credential "acme" acme verify_body revoked)
    = Returned (JSONResponse 200 (JObj [("verified", JBool true)]))
  ∧ fst (verify_credential "acme" acme verify_body issued)
    = Returned (JSONResponse 200 (JObj [("verified", JBool true)])).
Proof.
  repeat split; try (vm_compute; reflexivity).
  eexists _, _. split; vm_compute; reflexivity.
Qed.

Lemma issue_binds_status_entry_witness :
  ∃ vc credential options e3,
    PyDict.get "credentialStatus" credential = Some status_claim
    ∧ PyDict.get "@context" credential
      = Some (JArr [JStr "https://www.w3.org/2018/credentials/v1";
                    JStr "https://w3id.org/vc/status-list/2021/v1"])
    ∧ issue_credential "acme" acme
        (issue_body "urn:uuid:1" acme_did with_status) world0
      = (Returned (JSONResponse 201 (JObj [("verifiableCredential", vc)])),
         mkWorld e3
           (trace world0 ++
              [EvCreateEntry "acme" "StatusList2021";
               EvGetVerkey (JStr acme_did);
               EvPrint (JObj credential);
               EvPrint (JObj options);
               EvSign (JObj credential) (JObj options) (JStr "verkey");
               EvStore "acme:credentials:urn:uuid:1" (JObj credential)])).
Proof.
  eexists _, _, _, _. split; [| split].
  3: { exact (issue_binds_status_entry "acme" "acme" acme
                (issue_body "urn:uuid:1" acme_did with_status)
                (credential_doc "urn:uuid:1" acme_did) with_status
                [JStr "https://www.w3.org/2018/credentials/v1"]
                (JObj [("type", JStr "StatusList2021Entry")])
                (JStr "StatusList2021Entry") status_claim (JStr "urn:uuid:1")
                (JStr "verkey") _ "StatusList2021"
                "https://w3id.org/vc/status-list/2021/v1" world0 _ _ _
                eq_refl eq_refl eq_refl eq_refl eq_refl eq_refl eq_refl
                ltac:(vm_compute; reflexivity) ltac:(vm_compute; reflexivity)
                ltac:(vm_compute; reflexivity) ltac:(vm_compute; reflexivity)
                ltac:(vm_compute; reflexivity)). }
  - vm_compute. reflexivity.
  - vm_compute. reflexivity.
Defined.


(** The routes at work: without a token a status list is served and a
    credential is not. *)
Example status_list_served_without_token :
  let w := mkWorld
             (askar.put "acme:status_lists:StatusList2021" (JStr "list")
                (env world0)) [] in
  let r := mkRequest GET
             ["organization"; "acme"; "credentials"; "status"; "StatusList2021"]
             None JNull in
  jwt_bearer r = Some (HTTPException 403 "Not authenticated")
  ∧ fst (serve r w) = Returned (Body (JStr "list")).
Proof. split; vm_compute; reflexivity. Qed.

Example credential_refused_without_token :
  let r := mkRequest GET ["organization"; "acme"; "credentials"; "urn:uuid:1"]
             None JNull in
  serve r issued = (Raised (HTTPException 403 "Not authenticated"), issued).
Proof. vm_compute. reflexivity. Qed.

(** The list that a status update writes is not the one the retrieval
    endpoint reads: after the revocation of [urn:uuid:1] the signed list is
    under [acme:status_list], and a GET for the [StatusList2021] list of
    [acme] finds nothing under [acme:status_lists:StatusList2021]. *)
Example updated_list_is_not_served :
  (∃ doc, store (env revoked) !! "acme:status_list" = Some (Encoded doc))
  ∧ store (env revoked) !! "acme:status_lists:StatusList2021" = None
  ∧ not_found_signal (message "Status list not found")
      (fst (get_status_list_credential "acme" "StatusList2021" revoked)).
Proof.
  split; [eexists; vm_compute; reflexivity |].
  split; [vm_compute; reflexivity |].
  right. vm_compute. reflexivity.
Qed.

Lemma issue_answer_invariants_witness :
  ∃ r w',
    issue_credential "acme" acme (issue_body "urn:uuid:1" acme_did with_status)
      world0 = (Returned r, w')
    ∧ ∃ L cred options id verkey vc e2 e3,
        is_authorized "acme" acme = inr L
        ∧ issuer_id (JObj cred)
          = inr (JStr (DID_WEB_BASE +:+ ":organization:" +:+ L))
        ∧ PyDict.get "id" cred = Some id
        ∧ sign_json_ld (JObj cred) (JObj options) verkey e2 = (Returned vc, e3)
        ∧ store (env w') !! Str.lower (credential_key L (fmt id))
          = Some (Encoded (JObj cred))
        ∧ r = JSONResponse 201 (JObj [("verifiableCredential", vc)]).
Proof.
  eexists _, _. split; [vm_compute; reflexivity |].
  eapply (issue_answer_invariants "acme" acme
            (issue_body "urn:uuid:1" acme_did with_status) world0).
  vm_compute. reflexivity.
Defined.

Lemma issue_ignores_unknown_status_type_witness :
  ∃ vc credential options e3,
    issue_credential "acme" acme
      (issue_body "urn:uuid:1" acme_did with_other_status) world0
    = (Returned (JSONResponse 201 (JObj [("verifiableCredential", vc)])),
       mkWorld e3
         (trace world0 ++
            [EvGetVerkey (JStr acme_did);
             EvPrint (JObj credential);
             EvPrint (JObj options);
             EvSign (JObj credential) (JObj options) (JStr "verkey");
             EvStore "acme:credentials:urn:uuid:1" (JObj credential)]))
    ∧ PyDict.get "credentialStatus" credential = None
    ∧ PyDict.get "@context" credential
      = Some (JArr [JStr "https://www.w3.org/2018/credentials/v1"]).
Proof.
  eexists _, _, _, _.
  exact (issue_ignores_unknown_status_type "acme" "acme" acme
           (issue_body "urn:uuid:1" acme_did with_other_status)
           (credential_doc "urn:uuid:1" acme_did) with_other_status
           (JArr [JStr "https://www.w3.org/2018/credentials/v1"])
           (JObj [("type", JStr "BitstringStatusListEntry")])
           (JStr "BitstringStatusListEntry") (JStr "urn:uuid:1")
           (JStr "verkey") _ world0 _ _
           eq_refl eq_refl eq_refl eq_refl eq_refl eq_refl eq_refl eq_refl
           ltac:(vm_compute; reflexivity) ltac:(vm_compute; reflexivity)
           ltac:(vm_compute; reflexivity) eq_refl).
Defined.

Lemma issue_context_must_be_a_list_witness :
  ∃ w', issue_credential "acme" acme
          [("credential", JObj string_context_doc);
           ("options", JObj with_status)] world0
        = (Raised AttributeError, w')
      ∧ trace w' = trace world0
      ∧ store (env w') = store (env world0).
Proof.
  eapply (issue_context_must_be_a_list "acme" "acme" acme _
            string_context_doc with_status
            (JStr "https://www.w3.org/2018/credentials/v1")
            (JObj [("type", JStr "StatusList2021Entry")])
            (JStr "StatusList2021Entry"));
    try reflexivity.
  intros items. discriminate.
Defined.


Lemma update_works_on_issued_credential_witness :
  ∃ r w',
    issue_credential "acme" acme
      (issue_body "urn:uuid:AB12" acme_did with_status) world0
    = (Returned r, w')
    ∧ fst (update_credential_status "acme" acme
             (status_request (JStr "URN:UUID:ab12") []) (mkWorld (env w') []))
      = Returned (JSONResponse 200 (message "Status updated"))
    ∧ ∃ L cred id,
        is_authorized "acme" acme = inr L
        ∧ PyDict.get "id" cred = Some id
        ∧ ∀ credential_id statuses t verkey e2,
            let did := DID_WEB_BASE +:+ ":organization:" +:+ L in
            let options :=
              JObj [("verificationMethod", JStr (did +:+ "#verkey"));
                    ("proofPurpose", JStr "AssertionMethod")] in
            Str.lower (fmt credential_id) = Str.lower (fmt id) →
            get_verkey (JStr did) (env w') = (Returned verkey, e2) →
            update_credential_status "acme" acme
              (status_request credential_id statuses) (mkWorld (env w') t)
            = match for_each statuses
                      (apply_status L (JObj cred) options verkey)
                      (mkWorld e2
                         (t ++ [EvFetch (Str.lower (credential_key L (fmt id)));
                                EvGetVerkey (JStr did)])) with
              | (Returned _, w2) =>
                  (Returned (JSONResponse 200 (message "Status updated")), w2)
              | (Raised e, w2) => (Raised e, w2)
              end.
Proof.
  eexists _, _. split; [vm_compute; reflexivity |].
  split; [vm_compute; reflexivity |].
  eapply (update_works_on_issued_credential "acme" acme
            (issue_body "urn:uuid:AB12" acme_did with_status) world0).
  vm_compute. reflexivity.
Defined.

Lemma update_stops_at_failed_fetch_witness :
  update_credential_status "acme" acme
    (status_request (JStr "urn:uuid:1") [set_status (JBool true)]) world0
  = (Raised (EngineError NotFoundError),
     mkWorld (env world0)
       (trace world0 ++ [EvFetch "acme:credentials:urn:uuid:1"])).
Proof.
  exact (update_stops_at_failed_fetch "acme" "acme" acme
           (status_request (JStr "urn:uuid:1") [set_status (JBool true)])
           (JStr "urn:uuid:1") (JArr [set_status (JBool true)]) world0
           (EngineError NotFoundError) (env world0)
           eq_refl eq_refl eq_refl ltac:(vm_compute; reflexivity)).
Defined.

Lemma verify_status_failure_propagates_witness :
  ∃ credential status_type,
    verify_credential "acme" acme verify_body world0
    = (Raised (EngineError NotFoundError),
       mkWorld (env world0)
         (trace world0 ++ [EvGetCredentialStatus credential status_type])).
Proof.
  eexists _, _.
  refine (verify_status_failure_propagates "acme" "acme" acme verify_body
            _ _ status_claim (JStr "StatusList2021") [] world0
            (EngineError NotFoundError) (env world0)
            eq_refl eq_refl eq_refl eq_refl eq_refl eq_refl
            ltac:(vm_compute; reflexivity)).
Defined.

Lemma verify_answers_whatever_agent_returns_witness :
  ∃ credential,
    verify_credential "acme" acme [("verifiableCredential", JObj plain_vc)]
      world0
    = (Returned (JSONResponse 200 (JObj [("verified", JBool false)])),
       mkWorld (env world0)
         (trace world0 ++ [EvPrint credential; EvVerify credential])).
Proof.
  eexists.
  refine (verify_answers_whatever_agent_returns "acme" "acme" acme
            [("verifiableCredential", JObj plain_vc)] plain_vc
            (JArr [JStr "https://www.w3.org/2018/credentials/v1"])
            (JObj [("verified", JBool false)]) [] [] world0 (env world0)
            eq_refl eq_refl eq_refl eq_refl eq_refl eq_refl eq_refl
            ltac:(vm_compute; reflexivity)).
Defined.

Lemma routes_do_not_overlap_witness :
  resolve router
    (mkRequest POST ["organization"; "acme"; "credentials"; "issue"]
       (Some "acme") JNull)
  = Some (issue_route, [("label", "acme")]).
Proof.
  apply (routes_do_not_overlap
           (mkRequest POST ["organization"; "acme"; "credentials"; "issue"]
              (Some "acme") JNull) issue_route [("label", "acme")]).
  - apply list_elem_of_further, list_elem_of_here.
  - reflexivity.
  - reflexivity.
Defined.


Lemma verify_expiry_failure_propagates_witness :
  verify_credential "acme" acme [("verifiableCredential", JObj expiring_vc)]
    world0
  = (Raised ValueError, world0).
Proof.
  exact (verify_expiry_failure_propagates "acme" "acme" acme
           [("verifiableCredential", JObj expiring_vc)] expiring_vc
           (JArr [JStr "https://www.w3.org/2018/credentials/v1"])
           (JStr "next year") [] world0 ValueError
           eq_refl eq_refl eq_refl eq_refl eq_refl eq_refl eq_refl).
Defined.

End Scenarios.
